(** * Northwind SQL Copilot: the pipeline orchestrator, its cache and its log

    A shallow embedding of [src/pipeline.py], [src/cache.py],
    [src/models.py] and [src/logger_utils.py].

    Conventions of the embedding.

    - A Python [str] is a Rocq [string]; each [ascii] is one code point in
      the range 0..255 (Latin-1).  On that range [str.lower], [str.strip]
      and [re.IGNORECASE] are the functions written below; code points above
      255 are outside the model.
    - The language models, the database, [eval], the clock and the prompt
      templates are collaborators: they are the fields of an environment
      record, and a call either returns a value or raises.
    - [TextToSQLPipeline.run] mutates its [ExecutionLog], the cache, the cache
      file and the logger: the embedding threads one explicit state through a
      small state-and-exception monad whose [try_except_finally] follows
      Python's statement. *)

From Stdlib Require Import String Ascii List ZArith Bool Lia DecimalString.
Import ListNotations.
Set Warnings "-register-all".
Open Scope list_scope.
Open Scope string_scope.
Open Scope nat_scope.

(** ** Python strings on the Latin-1 range *)

Module PyStr.

Definition code (c : ascii) : nat := nat_of_ascii c.

(** [str.isspace] for one code point: TAB..CR, FS..US, space, NEL, NBSP. *)
Definition isspace (c : ascii) : bool :=
  let n := code c in
  ((9 <=? n) && (n <=? 13)) || ((28 <=? n) && (n <=? 31))
  || (n =? 32) || (n =? 133) || (n =? 160).

(** [str.lower] for one code point: A..Z and the Latin-1 capitals
    U+00C0..U+00DE except the multiplication sign U+00D7. *)
Definition lower_char (c : ascii) : ascii :=
  let n := code c in
  if ((65 <=? n) && (n <=? 90))
     || ((192 <=? n) && (n <=? 222) && negb (n =? 215))
  then ascii_of_nat (n + 32) else c.

Fixpoint lower (s : string) : string :=
  match s with
  | EmptyString => EmptyString
  | String c r => String (lower_char c) (lower r)
  end.

Fixpoint lstrip (s : string) : string :=
  match s with
  | EmptyString => EmptyString
  | String c r => if isspace c then lstrip r else s
  end.

Fixpoint rstrip (s : string) : string :=
  match s with
  | EmptyString => EmptyString
  | String c r =>
      match rstrip r with
      | EmptyString => if isspace c then EmptyString else String c EmptyString
      | r' => String c r'
      end
  end.

(** [s.strip()] *)
Definition strip (s : string) : string := rstrip (lstrip s).

(** Every code point of [s] is whitespace. *)
Fixpoint all_space (s : string) : bool :=
  match s with
  | EmptyString => true
  | String c r => isspace c && all_space r
  end.

(** [s.startswith(p)] *)
Fixpoint startswith (p s : string) : bool :=
  match p, s with
  | EmptyString, _ => true
  | String a p', String b s' => Ascii.eqb a b && startswith p' s'
  | String _ _, EmptyString => false
  end.

(** A match of the literal pattern [p] (already in lower case) at the head of
    [s] under [re.IGNORECASE]. *)
Fixpoint startswith_ci (p s : string) : bool :=
  match p, s with
  | EmptyString, _ => true
  | String a p', String b s' => Ascii.eqb a (lower_char b) && startswith_ci p' s'
  | String _ _, EmptyString => false
  end.

(** [p in s] *)
Fixpoint contains (p s : string) : bool :=
  startswith p s ||
  match s with
  | EmptyString => false
  | String _ r => contains p r
  end.

(** Python truth value of a string. *)
Definition nonempty (s : string) : bool :=
  match s with EmptyString => false | String _ _ => true end.

Definition LF : string := String "010"%char EmptyString.

End PyStr.

(** ** [TextToSQLPipeline._clean_sql] *)

Definition fence : string := "```".
Definition fence_sql : string := "```sql".

(** [re.sub(r'```sql|```', '', query, flags=re.IGNORECASE)]: the scan goes
    left to right; at each position the first alternative is tried before the
    second, a match is deleted and the scan resumes after it.  [skip] counts
    the code points of the current match that are still to be dropped. *)
Fixpoint sub_fences (skip : nat) (query : string) : string :=
  match query with
  | EmptyString => EmptyString
  | String c rest =>
      match skip with
      | S k => sub_fences k rest
      | O =>
          if PyStr.startswith_ci fence_sql query then sub_fences 5 rest
          else if PyStr.startswith_ci fence query then sub_fences 2 rest
          else String c (sub_fences 0 rest)
      end
  end.

Definition _clean_sql (query : string) : string :=
  PyStr.strip (sub_fences 0 query).

(** ** Python values returned by [eval] *)

(** The values [eval(raw_res)] can yield.  [PyOther] stands for an object of
    any other type (a float, a dict, bytes ...): the code only observes its
    truth value and its text, on which [str] and [repr] agree. *)
Inductive pyval : Type :=
| PyNone
| PyBool (b : bool)
| PyInt (z : Z)
| PyStr (s : string)
| PyTuple (items : list pyval)
| PyList (items : list pyval)
| PyOther (truth : bool) (text : string).

Module PyRepr.

Definition hex_digit (n : nat) : ascii :=
  if n <? 10 then ascii_of_nat (48 + n) else ascii_of_nat (87 + n).

(** [isprintable] for one Latin-1 code point. *)
Definition isprintable (c : ascii) : bool :=
  let n := PyStr.code c in
  ((32 <=? n) && (n <=? 126)) || ((161 <=? n) && negb (n =? 173)).

(** One code point inside the quotes of [repr(s)]. *)
Definition escape_char (quote c : ascii) : string :=
  let n := PyStr.code c in
  let bs := "\"%char in
  if Ascii.eqb c quote || Ascii.eqb c bs then String bs (String c "")
  else if n =? 9 then "\t"
  else if n =? 10 then "\n"
  else if n =? 13 then "\r"
  else if isprintable c then String c ""
  else String bs (String "x" (String (hex_digit (n / 16)) (String (hex_digit (n mod 16)) ""))).

Fixpoint escape (quote : ascii) (s : string) : string :=
  match s with
  | EmptyString => EmptyString
  | String c r => escape_char quote c ++ escape quote r
  end.

Definition apostrophe : ascii := "'"%char.
Definition double_quote : ascii := ascii_of_nat 34.

(** [repr(s)] of a string: single quotes, unless [s] holds a single quote and
    no double quote. *)
Definition repr_str (s : string) : string :=
  let quote :=
    if PyStr.contains (String apostrophe "") s
       && negb (PyStr.contains (String double_quote "") s)
    then double_quote else apostrophe in
  String quote (escape quote s ++ String quote "").

(** [str(z)] of an integer. *)
Definition str_int (z : Z) : string := NilZero.string_of_int (Z.to_int z).

(** [', '.join(parts)] *)
Fixpoint join_comma (parts : list string) : string :=
  match parts with
  | [] => ""
  | [p] => p
  | p :: rest => p ++ ", " ++ join_comma rest
  end.

Fixpoint repr (v : pyval) : string :=
  match v with
  | PyNone => "None"
  | PyBool b => if b then "True" else "False"
  | PyInt z => str_int z
  | PyStr s => repr_str s
  | PyTuple items =>
      match items with
      | [x] => "(" ++ repr x ++ ",)"
      | _ => "(" ++ join_comma (map repr items) ++ ")"
      end
  | PyList items => "[" ++ join_comma (map repr items) ++ "]"
  | PyOther _ text => text
  end.

(** [str(v)] *)
Definition str (v : pyval) : string :=
  match v with
  | PyStr s => s
  | _ => repr v
  end.

(** [bool(v)] *)
Definition truth (v : pyval) : bool :=
  match v with
  | PyNone => false
  | PyBool b => b
  | PyInt z => negb (Z.eqb z 0)
  | PyStr s => PyStr.nonempty s
  | PyTuple items | PyList items =>
      match items with [] => false | _ :: _ => true end
  | PyOther t _ => t
  end.

End PyRepr.

(** ** [TextToSQLPipeline._sanitize_result] *)

Definition _sanitize_result (raw_result : pyval) : string :=
  if negb (PyRepr.truth raw_result) then "[]"
  else
    match raw_result with
    | PyList (first :: _) =>               (* a list with len > 0 *)
        match first with
        | PyTuple [x] => PyRepr.str x      (* a tuple with len == 1 *)
        | _ => PyRepr.str raw_result
        end
    | _ => PyRepr.str raw_result
    end.

(** ** Values read from the cache file *)

(** The values [json.load] returns and [json.dump] accepts.  A float is seen
    only through its truth value. *)
Inductive json : Type :=
| JNull
| JBool (b : bool)
| JInt (z : Z)
| JFloat (nonzero : bool)
| JStr (s : string)
| JArr (items : list json)
| JObj (fields : list (string * json)).

Module Json.

(** [bool(v)] *)
Definition truth (v : json) : bool :=
  match v with
  | JNull => false
  | JBool b => b
  | JInt z => negb (Z.eqb z 0)
  | JFloat nz => nz
  | JStr s => PyStr.nonempty s
  | JArr items => match items with [] => false | _ :: _ => true end
  | JObj fields => match fields with [] => false | _ :: _ => true end
  end.

(** [type(v).__name__] *)
Definition type_name (v : json) : string :=
  match v with
  | JNull => "NoneType"
  | JBool _ => "bool"
  | JInt _ => "int"
  | JFloat _ => "float"
  | JStr _ => "str"
  | JArr _ => "list"
  | JObj _ => "dict"
  end.

(** [d.get(key)] on the items of a dict, in insertion order. *)
Fixpoint lookup (key : string) (fields : list (string * json)) : option json :=
  match fields with
  | [] => None
  | (k, v) :: rest => if String.eqb k key then Some v else lookup key rest
  end.

(** [d[key] = value]: an existing key keeps its place, a new key goes last. *)
Fixpoint store (key : string) (value : json) (fields : list (string * json))
  : list (string * json) :=
  match fields with
  | [] => [(key, value)]
  | (k, v) :: rest =>
      if String.eqb k key then (k, value) :: rest
      else (k, v) :: store key value rest
  end.

(** An [Optional[str]] as a Python value. *)
Definition of_optional (o : option string) : json :=
  match o with Some s => JStr s | None => JNull end.

End Json.

(** ** Exceptions and outcomes *)

Inductive exn_class : Type :=
| AttributeError
| KeyError
| TypeError
| ValidationError           (* pydantic *)
| UnicodeDecodeError
| JSONDecodeError
| OSError                   (* [IOError] is the same class *)
| OtherException (name : string).

(** An exception: its class, and [str(e)]. *)
Record exn : Type := { exn_class_of : exn_class; description : string }.

Inductive outcome (A : Type) : Type :=
| Return (a : A)
| Raise (e : exn).
Arguments Return {A} a.
Arguments Raise {A} e.

(** ** [cache.py] *)

Record CacheManager : Type := {
  file_path : string;
  enabled : bool;
  _cache : json
}.

(** The file at [file_path]: absent, or present with the outcome that
    [open(...)] followed by [json.load(f)] has on it. *)
Inductive file : Type :=
| Missing
| Present (load : outcome json).

(** [writable] tells whether [open(file_path, 'w')] succeeds. *)
Record Disk : Type := {
  cache_file : file;
  writable : bool
}.

Module Cache.

Definition with_cache (c : json) (self : CacheManager) : CacheManager :=
  {| file_path := file_path self; enabled := enabled self; _cache := c |}.

(** The clause [except (json.JSONDecodeError, IOError)]. *)
Definition caught_on_load (e : exn) : bool :=
  match exn_class_of e with
  | JSONDecodeError | OSError => true
  | _ => false
  end.

Definition _load_cache (self : CacheManager) (d : Disk) : outcome CacheManager :=
  if negb (enabled self) then Return self
  else
    match cache_file d with
    | Missing => Return self
    | Present (Return v) => Return (with_cache v self)
    | Present (Raise e) =>
        if caught_on_load e then Return (with_cache (JObj []) self)
        else Raise e
    end.

(** The object with [self._cache = {}], before [_load_cache]. *)
Definition blank (path : string) (on : bool) : CacheManager :=
  {| file_path := path; enabled := on; _cache := JObj [] |}.

(** [CacheManager(file_path, enabled)] *)
Definition __init__ (path : string) (on : bool) (d : Disk) : outcome CacheManager :=
  _load_cache (blank path on) d.

Definition _save_cache (self : CacheManager) (d : Disk) : Disk :=
  if negb (enabled self) then d
  else if writable d
       then {| cache_file := Present (Return (_cache self)); writable := writable d |}
       else d.                                  (* except IOError: pass *)

Definition normalize (question : string) : string :=
  PyStr.lower (PyStr.strip question).

Definition attribute_error (v : json) (attr : string) : exn :=
  {| exn_class_of := AttributeError;
     description := "'" ++ Json.type_name v ++ "' object has no attribute '" ++ attr ++ "'" |}.

Definition item_assignment_error (v : json) : exn :=
  {| exn_class_of := TypeError;
     description :=
       match v with
       | JArr _ => "list indices must be integers or slices, not str"
       | _ => "'" ++ Json.type_name v ++ "' object does not support item assignment"
       end |}.

(** [self._cache.get(key)]; Python's [None] is [JNull]. *)
Definition get (self : CacheManager) (question : string) : outcome json :=
  if negb (enabled self) then Return JNull
  else
    match _cache self with
    | JObj fields =>
        Return (match Json.lookup (normalize question) fields with
                | Some v => v
                | None => JNull
                end)
    | other => Raise (attribute_error other "get")
    end.

Definition set (self : CacheManager) (d : Disk) (question : string)
  (response_data : json) : outcome (CacheManager * Disk) :=
  if negb (enabled self) then Return (self, d)
  else
    match _cache self with
    | JObj fields =>
        let self' :=
          with_cache (JObj (Json.store (normalize question) response_data fields)) self in
        Return (self', _save_cache self' d)
    | other => Raise (item_assignment_error other)
    end.

(** [clear]: [removal] is what [os.remove(self.file_path)] does when it is
    reached.  The map is emptied before the file is looked at, so it stays
    emptied when the removal raises. *)
Definition clear (self : CacheManager) (d : Disk) (removal : outcome unit)
  : outcome unit * (CacheManager * Disk) :=
  let self' := with_cache (JObj []) self in
  match cache_file d with
  | Missing => (Return tt, (self', d))                 (* os.path.exists is False *)
  | Present _ =>
      match removal with
      | Return _ =>
          (Return tt, (self', {| cache_file := Missing; writable := writable d |}))
      | Raise e => (Raise e, (self', d))
      end
  end.

End Cache.

(** ** [models.py] *)

Module ExecutionLog.

Record t {duration : Type} : Type := {
  timestamp : string;
  user_prompt : string;
  sql_model : string;
  nlp_model : string;
  sql_prompt : option string;
  nlp_prompt : option string;
  sql_query : option string;
  result : option string;
  final_answer : option string;
  sql_generation_time : duration;
  query_execution_time : duration;
  answer_generation_time : duration;
  total_duration : duration;
  error : option string;
  success : bool
}.
Arguments t : clear implicits.

(** [ExecutionLog(timestamp=..., user_prompt=..., sql_model=..., nlp_model=...)]
    with the defaults of the class; [zero] is the float [0.0]. *)
Definition new {duration : Type} (zero : duration)
  (timestamp user_prompt sql_model nlp_model : string) : t duration :=
  {| timestamp := timestamp; user_prompt := user_prompt;
     sql_model := sql_model; nlp_model := nlp_model;
     sql_prompt := None; nlp_prompt := None;
     sql_query := None; result := None; final_answer := None;
     sql_generation_time := zero; query_execution_time := zero;
     answer_generation_time := zero; total_duration := zero;
     error := None; success := false |}.

(** Attribute assignments [log_entry.field = v]. *)
Definition set_sql_prompt {duration : Type} (v : option string) (self : t duration)
  : t duration :=
  {| timestamp := timestamp self;
     user_prompt := user_prompt self;
     sql_model := sql_model self;
     nlp_model := nlp_model self;
     sql_prompt := v;
     nlp_prompt := nlp_prompt self;
     sql_query := sql_query self;
     result := result self;
     final_answer := final_answer self;
     sql_generation_time := sql_generation_time self;
     query_execution_time := query_execution_time self;
     answer_generation_time := answer_generation_time self;
     total_duration := total_duration self;
     error := error self;
     success := success self |}.

Definition set_nlp_prompt {duration : Type} (v : option string) (self : t duration)
  : t duration :=
  {| timestamp := timestamp self;
     user_prompt := user_prompt self;
     sql_model := sql_model self;
     nlp_model := nlp_model self;
     sql_prompt := sql_prompt self;
     nlp_prompt := v;
     sql_query := sql_query self;
     result := result self;
     final_answer := final_answer self;
     sql_generation_time := sql_generation_time self;
     query_execution_time := query_execution_time self;
     answer_generation_time := answer_generation_time self;
     total_duration := total_duration self;
     error := error self;
     success := success self |}.

Definition set_sql_query {duration : Type} (v : option string) (self : t duration)
  : t duration :=
  {| timestamp := timestamp self;
     user_prompt := user_prompt self;
     sql_model := sql_model self;
     nlp_model := nlp_model self;
     sql_prompt := sql_prompt self;
     nlp_prompt := nlp_prompt self;
     sql_query := v;
     result := result self;
     final_answer := final_answer self;
     sql_generation_time := sql_generation_time self;
     query_execution_time := query_execution_time self;
     answer_generation_time := answer_generation_time self;
     total_duration := total_duration self;
     error := error self;
     success := success self |}.

Definition set_result {duration : Type} (v : option string) (self : t duration)
  : t duration :=
  {| timestamp := timestamp self;
     user_prompt := user_prompt self;
     sql_model := sql_model self;
     nlp_model := nlp_model self;
     sql_prompt := sql_prompt self;
     nlp_prompt := nlp_prompt self;
     sql_query := sql_query self;
     result := v;
     final_answer := final_answer self;
     sql_generation_time := sql_generation_time self;
     query_execution_time := query_execution_time self;
     answer_generation_time := answer_generation_time self;
     total_duration := total_duration self;
     error := error self;
     success := success self |}.

Definition set_final_answer {duration : Type} (v : option string) (self : t duration)
  : t duration :=
  {| timestamp := timestamp self;
     user_prompt := user_prompt self;
     sql_model := sql_model self;
     nlp_model := nlp_model self;
     sql_prompt := sql_prompt self;
     nlp_prompt := nlp_prompt self;
     sql_query := sql_query self;
     result := result self;
     final_answer := v;
     sql_generation_time := sql_generation_time self;
     query_execution_time := query_execution_time self;
     answer_generation_time := answer_generation_time self;
     total_duration := total_duration self;
     error := error self;
     success := success self |}.

Definition set_sql_generation_time {duration : Type} (v : duration) (self : t duration)
  : t duration :=
  {| timestamp := timestamp self;
     user_prompt := user_prompt self;
     sql_model := sql_model self;
     nlp_model := nlp_model self;
     sql_prompt := sql_prompt self;
     nlp_prompt := nlp_prompt self;
     sql_query := sql_query self;
     result := result self;
     final_answer := final_answer self;
     sql_generation_time := v;
     query_execution_time := query_execution_time self;
     answer_generation_time := answer_generation_time self;
     total_duration := total_duration self;
     error := error self;
     success := success self |}.

Definition set_query_execution_time {duration : Type} (v : duration) (self : t duration)
  : t duration :=
  {| timestamp := timestamp self;
     user_prompt := user_prompt self;
     sql_model := sql_model self;
     nlp_model := nlp_model self;
     sql_prompt := sql_prompt self;
     nlp_prompt := nlp_prompt self;
     sql_query := sql_query self;
     result := result self;
     final_answer := final_answer self;
     sql_generation_time := sql_generation_time self;
     query_execution_time := v;
     answer_generation_time := answer_generation_time self;
     total_duration := total_duration self;
     error := error self;
     success := success self |}.

Definition set_answer_generation_time {duration : Type} (v : duration) (self : t duration)
  : t duration :=
  {| timestamp := timestamp self;
     user_prompt := user_prompt self;
     sql_model := sql_model self;
     nlp_model := nlp_model self;
     sql_prompt := sql_prompt self;
     nlp_prompt := nlp_prompt self;
     sql_query := sql_query self;
     result := result self;
     final_answer := final_answer self;
     sql_generation_time := sql_generation_time self;
     query_execution_time := query_execution_time self;
     answer_generation_time := v;
     total_duration := total_duration self;
     error := error self;
     success := success self |}.

Definition set_total_duration {duration : Type} (v : duration) (self : t duration)
  : t duration :=
  {| timestamp := timestamp self;
     user_prompt := user_prompt self;
     sql_model := sql_model self;
     nlp_model := nlp_model self;
     sql_prompt := sql_prompt self;
     nlp_prompt := nlp_prompt self;
     sql_query := sql_query self;
     result := result self;
     final_answer := final_answer self;
     sql_generation_time := sql_generation_time self;
     query_execution_time := query_execution_time self;
     answer_generation_time := answer_generation_time self;
     total_duration := v;
     error := error self;
     success := success self |}.

Definition set_error {duration : Type} (v : option string) (self : t duration)
  : t duration :=
  {| timestamp := timestamp self;
     user_prompt := user_prompt self;
     sql_model := sql_model self;
     nlp_model := nlp_model self;
     sql_prompt := sql_prompt self;
     nlp_prompt := nlp_prompt self;
     sql_query := sql_query self;
     result := result self;
     final_answer := final_answer self;
     sql_generation_time := sql_generation_time self;
     query_execution_time := query_execution_time self;
     answer_generation_time := answer_generation_time self;
     total_duration := total_duration self;
     error := v;
     success := success self |}.

Definition set_success {duration : Type} (v : bool) (self : t duration)
  : t duration :=
  {| timestamp := timestamp self;
     user_prompt := user_prompt self;
     sql_model := sql_model self;
     nlp_model := nlp_model self;
     sql_prompt := sql_prompt self;
     nlp_prompt := nlp_prompt self;
     sql_query := sql_query self;
     result := result self;
     final_answer := final_answer self;
     sql_generation_time := sql_generation_time self;
     query_execution_time := query_execution_time self;
     answer_generation_time := answer_generation_time self;
     total_duration := total_duration self;
     error := error self;
     success := v |}.

End ExecutionLog.

Module QueryResponse.

Record t {duration : Type} : Type := {
  question : string;
  answer : string;
  sql_query : string;
  execution_time : duration;
  from_cache : bool
}.
Arguments t : clear implicits.

Definition validation_error (field : string) : exn :=
  {| exn_class_of := ValidationError;
     description := "1 validation error for QueryResponse: " ++ field |}.

(** [QueryResponse(question=..., answer=..., sql_query=..., ...)]: the model
    validates that [answer] and [sql_query] are strings. *)
Definition new {duration : Type} (question : string) (answer sql_query : json)
  (execution_time : duration) (from_cache : bool) : outcome (t duration) :=
  match answer, sql_query with
  | JStr a, JStr q =>
      Return {| question := question; answer := a; sql_query := q;
                execution_time := execution_time; from_cache := from_cache |}
  | JStr _, _ => Raise (validation_error "sql_query")
  | _, _ => Raise (validation_error "answer")
  end.

End QueryResponse.

(** ** [logger_utils.py] *)

Inductive level : Type := INFO | ERROR.

(** What a handler receives: a progress line, or the structured dump that
    [log_struct] formats from a record. *)
Inductive log_line {duration : Type} : Type :=
| Message (lv : level) (message : string)
| Struct (label : string) (data : ExecutionLog.t duration).
Arguments log_line : clear implicits.

Record DailyLogger {duration : Type} : Type := {
  file_handler : list (log_line duration);
  console_handler : list (log_line duration)
}.
Arguments DailyLogger : clear implicits.

Module Logger.
Section Methods.
Context {duration : Type}.

(** [self.logger.info(message)] with both handlers attached. *)
Definition emit (l : log_line duration) (self : DailyLogger duration)
  : DailyLogger duration :=
  {| file_handler := file_handler self ++ [l];
     console_handler := console_handler self ++ [l] |}.

Definition log_info (message : string) := emit (Message INFO message).
Definition log_error (message : string) := emit (Message ERROR message).

(** [log_struct]: the console handler is removed while the dump is logged, so
    only the file receives it.  For an [ExecutionLog] neither [model_dump]
    nor [json.dumps(..., default=str)] raises. *)
Definition log_struct (data : ExecutionLog.t duration) (self : DailyLogger duration)
  : DailyLogger duration :=
  {| file_handler := file_handler self ++ [Struct "EXECUTION_RECORD" data];
     console_handler := console_handler self |}.

(** The structured records a handler holds, oldest first. *)
Fixpoint records (lines : list (log_line duration)) : list (ExecutionLog.t duration) :=
  match lines with
  | [] => []
  | Struct _ data :: rest => data :: records rest
  | Message _ _ :: rest => records rest
  end.

End Methods.
End Logger.

(** ** Collaborators of the pipeline *)

(** What a model backend hands back: an object with a [content] attribute, or
    any other object, seen through [str]. *)
Inductive reply : Type :=
| WithContent (content : string)
| Plain (text : string).

(** [raw.content if hasattr(raw, 'content') else str(raw)] *)
Definition reply_text (raw : reply) : string :=
  match raw with
  | WithContent content => content
  | Plain text => text
  end.

(** The calls that leave the process. *)
Inductive call : Type :=
| GetTableInfo
| SqlLlmInvoke (prompt : string)
| DbRun (command : option string)
| Eval (source : string)
| NlpLlmInvoke (prompt : string).

Section Pipeline.
Context {time duration : Type}.

(** The configuration and the collaborators.  A clock read is indexed by the
    number of reads made before it. *)
Record Env : Type := {
  SQL_MODEL : string;
  NLP_MODEL : string;
  time_time : nat -> time;                       (* time.time() *)
  isoformat_now : nat -> string;                 (* datetime.now().isoformat() *)
  round_elapsed : time -> time -> duration;      (* round(t1 - t0, 2), t0 first *)
  zero : duration;                               (* the float 0.0 *)
  str_duration : duration -> string;             (* str of a float *)
  get_table_info : outcome string;               (* self.db.get_table_info() *)
  get_sql_prompt : string -> string -> string;   (* schema, question *)
  get_nlp_prompt : string -> option string -> option string -> string;
                                                 (* question, query, result *)
  sql_llm : string -> outcome reply;             (* self.sql_llm.invoke *)
  nlp_llm : string -> outcome reply;             (* self.nlp_llm.invoke *)
  db_run : option string -> outcome string;      (* self.db.run *)
  eval : string -> outcome pyval
}.

(** Everything [run] reads and writes; [log_entry] is the local variable of
    the run in progress. *)
Record State : Type := {
  cache : CacheManager;
  disk : Disk;
  app_logger : DailyLogger duration;
  clock : nat;
  calls : list call;
  log_entry : ExecutionLog.t duration
}.

(** *** A state and exception monad *)

Definition M (A : Type) : Type := State -> outcome A * State.

Definition ret {A : Type} (a : A) : M A := fun s => (Return a, s).

Definition raise {A : Type} (e : exn) : M A := fun s => (Raise e, s).

Definition bind {A B : Type} (m : M A) (k : A -> M B) : M B :=
  fun s =>
    match m s with
    | (Return a, s') => k a s'
    | (Raise e, s') => (Raise e, s')
    end.

Definition lift {A : Type} (r : outcome A) : M A := fun s => (r, s).

(** [try: body / except Exception as e: handler] *)
Definition try_except (body : M unit) (handler : exn -> M unit) : M unit :=
  fun s =>
    match body s with
    | (Raise e, s') => handler e s'
    | done => done
    end.

(** [try: body / except Exception as e: handler / finally: final]: [final]
    runs on every path, and what was pending before it stays pending unless
    [final] itself raises. *)
Definition try_except_finally (body : M unit) (handler : exn -> M unit)
  (final : M unit) : M unit :=
  fun s =>
    let '(pending, s1) := try_except body handler s in
    match final s1 with
    | (Return _, s2) => (pending, s2)
    | (Raise e, s2) => (Raise e, s2)
    end.

End Pipeline.

Declare Scope py_scope.
Delimit Scope py_scope with py.
Notation "x <- m ;; k" := (bind m (fun x => k))
  (at level 61, m at next level, right associativity) : py_scope.
Notation "m ;; k" := (bind m (fun _ => k))
  (at level 61, right associativity) : py_scope.

Section Run.
Context {time duration : Type}.
Variable env : @Env time duration.

Local Abbreviation State := (@State duration).
Local Abbreviation M := (@M duration).
Local Open Scope py_scope.

(** *** State accessors *)

Definition with_log_entry (l : ExecutionLog.t duration) (s : State) : State :=
  {| cache := cache s; disk := disk s; app_logger := app_logger s;
     clock := clock s; calls := calls s; log_entry := l |}.

Definition with_app_logger (l : DailyLogger duration) (s : State) : State :=
  {| cache := cache s; disk := disk s; app_logger := l;
     clock := clock s; calls := calls s; log_entry := log_entry s |}.

Definition with_cache_disk (c : CacheManager) (d : Disk) (s : State) : State :=
  {| cache := c; disk := d; app_logger := app_logger s;
     clock := clock s; calls := calls s; log_entry := log_entry s |}.

(** [log_entry.field = v] *)
Definition assign (f : ExecutionLog.t duration -> ExecutionLog.t duration) : M unit :=
  fun s => (Return tt, with_log_entry (f (log_entry s)) s).

(** Reading [log_entry]. *)
Definition the_log_entry : M (ExecutionLog.t duration) :=
  fun s => (Return (log_entry s), s).

Definition tick (s : State) : State :=
  {| cache := cache s; disk := disk s; app_logger := app_logger s;
     clock := S (clock s); calls := calls s; log_entry := log_entry s |}.

Definition now : M time := fun s => (Return (time_time env (clock s)), tick s).

Definition now_isoformat : M string :=
  fun s => (Return (isoformat_now env (clock s)), tick s).

(** A call to a collaborator: recorded, then its outcome. *)
Definition invoke {A : Type} (c : call) (r : outcome A) : M A :=
  fun s =>
    (r, {| cache := cache s; disk := disk s; app_logger := app_logger s;
           clock := clock s; calls := calls s ++ [c]; log_entry := log_entry s |}).

Definition log_info (message : string) : M unit :=
  fun s => (Return tt, with_app_logger (Logger.log_info message (app_logger s)) s).

Definition log_error (message : string) : M unit :=
  fun s => (Return tt, with_app_logger (Logger.log_error message (app_logger s)) s).

Definition log_struct (data : ExecutionLog.t duration) : M unit :=
  fun s => (Return tt, with_app_logger (Logger.log_struct data (app_logger s)) s).

Definition cache_get (question : string) : M json :=
  fun s => (Cache.get (cache s) question, s).

Definition cache_set (question : string) (response_data : json) : M unit :=
  fun s =>
    match Cache.set (cache s) (disk s) question response_data with
    | Return (c, d) => (Return tt, with_cache_disk c d s)
    | Raise e => (Raise e, s)
    end.

(** *** Python expressions used by [run] *)

(** [cached_data[key]] *)
Definition getitem (v : json) (key : string) : outcome json :=
  match v with
  | JObj fields =>
      match Json.lookup key fields with
      | Some x => Return x
      | None =>
          Raise {| exn_class_of := KeyError; description := "'" ++ key ++ "'" |}
      end
  | JStr _ =>
      Raise {| exn_class_of := TypeError;
               description := "string indices must be integers, not 'str'" |}
  | JArr _ =>
      Raise {| exn_class_of := TypeError;
               description := "list indices must be integers or slices, not str" |}
  | other =>
      Raise {| exn_class_of := TypeError;
               description := "'" ++ Json.type_name other ++ "' object is not subscriptable" |}
  end.

(** [x or default] for an [Optional[str]] *)
Definition or_else (x : option string) (default : string) : string :=
  match x with
  | Some s => if PyStr.nonempty s then s else default
  | None => default
  end.

(** *** The stages of [run], lines 80 to 122 *)

(** 2. Generate SQL *)
Definition generate_sql (question : string) : M unit :=
  t0 <- now ;;
  schema <- invoke GetTableInfo (get_table_info env) ;;
  let sql_prompt_val := get_sql_prompt env schema question in
  assign (ExecutionLog.set_sql_prompt (Some sql_prompt_val)) ;;
  raw_sql <- invoke (SqlLlmInvoke sql_prompt_val) (sql_llm env sql_prompt_val) ;;
  assign (ExecutionLog.set_sql_query (Some (_clean_sql (reply_text raw_sql)))) ;;
  t1 <- now ;;
  assign (ExecutionLog.set_sql_generation_time (round_elapsed env t0 t1)) ;;
  l <- the_log_entry ;;
  log_info ("SQL Generated in "
            ++ str_duration env (ExecutionLog.sql_generation_time l) ++ "s").

(** 3. Execute SQL *)
Definition execute_sql : M unit :=
  t0 <- now ;;
  try_except
    (l <- the_log_entry ;;
     raw_res <- invoke (DbRun (ExecutionLog.sql_query l))
                       (db_run env (ExecutionLog.sql_query l)) ;;
     value <- invoke (Eval raw_res) (eval env raw_res) ;;
     assign (ExecutionLog.set_result (Some (_sanitize_result value))))
    (fun e =>
       assign (ExecutionLog.set_result (Some "Error executing query")) ;;
       raise e) ;;
  t1 <- now ;;
  assign (ExecutionLog.set_query_execution_time (round_elapsed env t0 t1)).

(** 4. Generate Answer *)
Definition generate_answer (question : string) : M unit :=
  t0 <- now ;;
  l <- the_log_entry ;;
  let nlp_prompt_val :=
    get_nlp_prompt env question (ExecutionLog.sql_query l) (ExecutionLog.result l) in
  assign (ExecutionLog.set_nlp_prompt (Some nlp_prompt_val)) ;;
  ans_res <- invoke (NlpLlmInvoke nlp_prompt_val) (nlp_llm env nlp_prompt_val) ;;
  assign (ExecutionLog.set_final_answer (Some (PyStr.strip (reply_text ans_res)))) ;;
  t1 <- now ;;
  assign (ExecutionLog.set_answer_generation_time (round_elapsed env t0 t1)) ;;
  assign (ExecutionLog.set_success true).

(** Save to Cache *)
Definition save_to_cache (question : string) : M unit :=
  l <- the_log_entry ;;
  cache_set question
    (JObj [("answer", Json.of_optional (ExecutionLog.final_answer l));
           ("sql_query", Json.of_optional (ExecutionLog.sql_query l))]).

(** The body of the [try] statement. *)
Definition run_try (question : string) : M unit :=
  generate_sql question ;;
  execute_sql ;;
  generate_answer question ;;
  save_to_cache question.

(** The [except Exception as e] clause. *)
Definition run_except (e : exn) : M unit :=
  assign (ExecutionLog.set_error (Some (description e))) ;;
  assign (ExecutionLog.set_final_answer (Some ("Error: " ++ description e))) ;;
  log_error ("Pipeline Error: " ++ description e).

(** The [finally] clause. *)
Definition run_finally (start_total : time) : M unit :=
  t <- now ;;
  assign (ExecutionLog.set_total_duration (round_elapsed env start_total t)) ;;
  l <- the_log_entry ;;
  log_struct l.

(** *** [TextToSQLPipeline.run] *)

(** Lines 56 to 66: the new [log_entry], [start_total], the cache lookup. *)
Definition cache_check (question : string) : M (time * json) :=
  timestamp <- now_isoformat ;;
  assign (fun _ => ExecutionLog.new (zero env) timestamp question
                     (SQL_MODEL env) (NLP_MODEL env)) ;;
  start_total <- now ;;
  cached_data <- cache_get question ;;
  ret (start_total, cached_data).

(** Lines 68 to 75: the answer served from the cache. *)
Definition serve_cached (question : string) (cached_data : json)
  : M (QueryResponse.t duration) :=
  log_info ("Processing: " ++ question ++ " (Cached)") ;;
  answer <- lift (getitem cached_data "answer") ;;
  sql_query <- lift (getitem cached_data "sql_query") ;;
  lift (QueryResponse.new question answer sql_query (zero env) true).

(** Lines 133 to 138: the response built from [log_entry]. *)
Definition respond (question : string) : M (QueryResponse.t duration) :=
  l <- the_log_entry ;;
  lift (QueryResponse.new question
          (Json.of_optional (ExecutionLog.final_answer l))
          (JStr (or_else (ExecutionLog.sql_query l) "Failed"))
          (ExecutionLog.total_duration l) false).

(** Lines 77 to 138: the run that misses the cache. *)
Definition run_uncached (question : string) (start_total : time)
  : M (QueryResponse.t duration) :=
  log_info ("Processing: " ++ question) ;;
  try_except_finally (run_try question) run_except (run_finally start_total) ;;
  respond question.

Definition run (question : string) : M (QueryResponse.t duration) :=
  check <- cache_check question ;;
  let '(start_total, cached_data) := check in
  if Json.truth cached_data
  then serve_cached question cached_data
  else run_uncached question start_total.

End Run.

(** ** Vocabulary of the statements *)

Section Vocabulary.
Context {time duration : Type}.
Variable env : @Env time duration.

Local Abbreviation State := (@State duration).
Local Abbreviation M := (@M duration).

(** [try_entry question s = Some (start_total, s0)]: the run of [question]
    from [s] misses the cache and enters its [try] statement in state [s0],
    having read [start_total] off the clock. *)
Definition try_entry (question : string) (s : State) : option (time * State) :=
  match cache_check env question s with
  | (Return (start_total, cached_data), s1) =>
      if Json.truth cached_data then None
      else Some (start_total, snd (log_info ("Processing: " ++ question) s1))
  | (Raise _, _) => None
  end.

(** The stage [m], started in [s], raises [e]. *)
Definition raises (m : M unit) (s : State) (e : exn) : Prop :=
  fst (m s) = Raise e.

(** The stage [m], started in [s], completes in [s']. *)
Definition completes (m : M unit) (s s' : State) : Prop :=
  m s = (Return tt, s').

(** One of the three stages of the run of [question] that enters its [try]
    statement in [s0] raises [e]. *)
Definition stage_raises (question : string) (s0 : State) (e : exn) : Prop :=
  raises (generate_sql env question) s0 e
  \/ exists s1, completes (generate_sql env question) s0 s1
       /\ (raises (execute_sql env) s1 e
           \/ exists s2, completes (execute_sql env) s1 s2
                /\ raises (generate_answer env question) s2 e).

(** All three stages of the run of [question] that enters its [try] statement
    in [s0] complete; [s3] is the state after the last of them. *)
Definition stages_complete (question : string) (s0 s3 : State) : Prop :=
  exists s1 s2,
    completes (generate_sql env question) s0 s1
    /\ completes (execute_sql env) s1 s2
    /\ completes (generate_answer env question) s2 s3.

(** The structured records the log file holds. *)
Definition persisted (s : State) : list (ExecutionLog.t duration) :=
  Logger.records (file_handler (app_logger s)).

(** The database never answers the empty statement with text that [eval]
    accepts: MySQL rejects it (error 1065, "Query was empty"), and a result
    without rows is the text [""], on which [eval] raises [SyntaxError]. *)
Definition rejects_empty_statement : Prop :=
  forall raw_res,
    db_run env (Some "") = Return raw_res -> exists e, eval env raw_res = Raise e.

End Vocabulary.

(** The two shapes of a finalized record. *)
Definition succeeded {duration : Type} (l : ExecutionLog.t duration) : Prop :=
  ExecutionLog.success l = true
  /\ ExecutionLog.final_answer l <> None /\ ExecutionLog.error l = None.

Definition failed {duration : Type} (l : ExecutionLog.t duration) : Prop :=
  ExecutionLog.success l = false /\ ExecutionLog.error l <> None.

(** [get] succeeds exactly on a cache that is switched off or holds a dict. *)
Definition sane (self : CacheManager) : Prop :=
  enabled self = false \/ exists fields, _cache self = JObj fields.

(** Two code points that are the same letter, whatever their case. *)
Definition same_letter (a b : ascii) : Prop :=
  PyStr.lower_char a = PyStr.lower_char b.

Inductive same_letters : string -> string -> Prop :=
| same_letters_nil : same_letters "" ""
| same_letters_cons a b s t :
    same_letter a b -> same_letters s t ->
    same_letters (String a s) (String b t).

(** [variant q q']: the two questions differ only in surrounding whitespace
    and in letter case. *)
Definition variant (q q' : string) : Prop :=
  exists l r l' r' core core',
    q = l ++ core ++ r /\ q' = l' ++ core' ++ r'
    /\ PyStr.all_space l = true /\ PyStr.all_space r = true
    /\ PyStr.all_space l' = true /\ PyStr.all_space r' = true
    /\ same_letters core core'.

(** ** Concrete collaborators *)

Module Demo.
Import PyStr.

(** A clock that advances by one at each read; durations are differences. *)
Definition base : @Env nat nat :=
  {| SQL_MODEL := "sql-model"; NLP_MODEL := "nlp-model";
     time_time := fun n => n;
     isoformat_now := fun n => "2026-01-01T00:00:0" ++ PyRepr.str_int (Z.of_nat n);
     round_elapsed := fun t0 t1 => t1 - t0;
     zero := 0;
     str_duration := fun d => PyRepr.str_int (Z.of_nat d);
     get_table_info := Return "CREATE TABLE orders (id INT)";
     get_sql_prompt := fun schema question => schema ++ LF ++ question;
     get_nlp_prompt := fun question query result =>
                         question ++ LF ++ or_else query "" ++ LF ++ or_else result "";
     sql_llm := fun _ =>
       Return (WithContent ("```sql" ++ LF ++ "SELECT COUNT(*) FROM orders" ++ LF ++ "```"));
     nlp_llm := fun _ => Return (WithContent " There are 42 orders. ");
     db_run := fun _ => Return "[(42,)]";
     eval := fun _ => Return (PyList [PyTuple [PyInt 42]]) |}.

Definition boom (msg : string) : exn :=
  {| exn_class_of := OtherException "RuntimeError"; description := msg |}.

Definition with_table_info (r : outcome string) (e : @Env nat nat) : @Env nat nat :=
  {| SQL_MODEL := SQL_MODEL e; NLP_MODEL := NLP_MODEL e;
     time_time := time_time e; isoformat_now := isoformat_now e;
     round_elapsed := round_elapsed e; zero := zero e;
     str_duration := str_duration e;
     get_table_info := r;
     get_sql_prompt := get_sql_prompt e; get_nlp_prompt := get_nlp_prompt e;
     sql_llm := sql_llm e; nlp_llm := nlp_llm e;
     db_run := db_run e; eval := eval e |}.

Definition with_sql_llm (f : string -> outcome reply) (e : @Env nat nat) : @Env nat nat :=
  {| SQL_MODEL := SQL_MODEL e; NLP_MODEL := NLP_MODEL e;
     time_time := time_time e; isoformat_now := isoformat_now e;
     round_elapsed := round_elapsed e; zero := zero e;
     str_duration := str_duration e;
     get_table_info := get_table_info e;
     get_sql_prompt := get_sql_prompt e; get_nlp_prompt := get_nlp_prompt e;
     sql_llm := f; nlp_llm := nlp_llm e;
     db_run := db_run e; eval := eval e |}.

Definition with_db_run (f : option string -> outcome string) (e : @Env nat nat)
  : @Env nat nat :=
  {| SQL_MODEL := SQL_MODEL e; NLP_MODEL := NLP_MODEL e;
     time_time := time_time e; isoformat_now := isoformat_now e;
     round_elapsed := round_elapsed e; zero := zero e;
     str_duration := str_duration e;
     get_table_info := get_table_info e;
     get_sql_prompt := get_sql_prompt e; get_nlp_prompt := get_nlp_prompt e;
     sql_llm := sql_llm e; nlp_llm := nlp_llm e;
     db_run := f; eval := eval e |}.

Definition with_nlp_llm (f : string -> outcome reply) (e : @Env nat nat) : @Env nat nat :=
  {| SQL_MODEL := SQL_MODEL e; NLP_MODEL := NLP_MODEL e;
     time_time := time_time e; isoformat_now := isoformat_now e;
     round_elapsed := round_elapsed e; zero := zero e;
     str_duration := str_duration e;
     get_table_info := get_table_info e;
     get_sql_prompt := get_sql_prompt e; get_nlp_prompt := get_nlp_prompt e;
     sql_llm := sql_llm e; nlp_llm := f;
     db_run := db_run e; eval := eval e |}.

(** The database is unreachable when the schema is asked for. *)
Definition no_schema : @Env nat nat :=
  with_table_info (Raise (boom "connection lost")) base.

(** The database rejects the generated statement. *)
Definition bad_sql : @Env nat nat :=
  with_db_run (fun _ => Raise (boom "You have an error in your SQL syntax")) base.

(** The conversational backend is down. *)
Definition no_answer : @Env nat nat :=
  with_nlp_llm (fun _ => Raise (boom "model not found")) base.

(** The code backend answers with fence markers only, and the database
    rejects the empty statement. *)
Definition only_fences : @Env nat nat :=
  with_sql_llm (fun _ => Return (WithContent ("```sql" ++ LF ++ "```")))
    (with_db_run (fun _ => Raise (boom "Query was empty")) base).

(** As [base], with a database that rejects the empty statement. *)
Definition strict : @Env nat nat :=
  with_db_run (fun command =>
                 match command with
                 | Some EmptyString => Raise (boom "Query was empty")
                 | _ => Return "[(42,)]"
                 end) base.

Definition empty_disk : Disk := {| cache_file := Missing; writable := true |}.

Definition cache_path : string := "query_cache.json".

(** The state of a pipeline that has been constructed over [d], with the
    cache switched [on] or off, and has not run yet. *)
Definition fresh_state (c : CacheManager) (d : Disk) : @State nat :=
  {| cache := c; disk := d;
     app_logger := {| file_handler := []; console_handler := [] |};
     clock := 0; calls := [];
     log_entry := ExecutionLog.new 0 "" "" "" "" |}.

Definition empty_cache (on : bool) : CacheManager := Cache.blank cache_path on.

Definition start : @State nat := fresh_state (empty_cache true) empty_disk.

Definition question : string := " What Is X? ".

End Demo.

(** ** Construction of the pipeline and [main.py] *)

(** [CACHE_FILE] of [config.py]. *)
Definition CACHE_FILE : string := "query_cache.json".

(** What the host decides at start-up. *)
Record Host {duration : Type} : Type := {
  NLP_PROMPT_STRATEGY : string;               (* os.getenv("NLP_PROMPT", "short") *)
  from_uri : outcome unit;                    (* SQLDatabase.from_uri(DB_URI, ...) *)
  os_remove : outcome unit;                   (* os.remove(CACHE_FILE) *)
  format_2f : duration -> string              (* f"{x:.2f}" *)
}.
Arguments Host : clear implicits.

Module TextToSQLPipeline.
Section Construction.
Context {time duration : Type}.
Variable env : @Env time duration.
Variable host : Host duration.

(** [_connect_to_db]: the connection is tried by asking for the schema; a
    failure is logged and raised again. *)
Definition _connect_to_db (logger : DailyLogger duration) (made : list call)
  : outcome unit * (DailyLogger duration * list call) :=
  match from_uri host with
  | Raise e =>
      (Raise e, (Logger.log_error ("DB Connection failed: " ++ description e) logger,
                 made))
  | Return _ =>
      match get_table_info env with
      | Raise e =>
          (Raise e, (Logger.log_error ("DB Connection failed: " ++ description e) logger,
                     (made ++ [GetTableInfo])%list))
      | Return _ =>
          (Return tt, (Logger.log_info "Database connected successfully." logger,
                       (made ++ [GetTableInfo])%list))
      end
  end.

(** [TextToSQLPipeline(use_cache)]: the object is its cache store; the
    database and the two models are the collaborators of [env], and
    [_init_llm] only builds the two clients, without a call. *)
Definition __init__ (use_cache : bool) (logger : DailyLogger duration) (d : Disk)
  (made : list call) : outcome CacheManager * (DailyLogger duration * list call) :=
  let logger1 :=
    Logger.log_info ("Initializing Pipeline with NLP strategy: "
                     ++ NLP_PROMPT_STRATEGY host) logger in
  match _connect_to_db logger1 made with
  | (Raise e, after) => (Raise e, after)
  | (Return _, after) => (Cache.__init__ CACHE_FILE use_cache d, after)
  end.

End Construction.
End TextToSQLPipeline.

Module Main.

(** The parsed command line. *)
Record Args : Type := {
  question : string;
  no_cache : bool;
  clear_cache : bool
}.

(** The default of the positional argument. *)
Definition default_question : string :=
  "Which customer has placed the least orders?".

(** How the program ends. *)
Inductive ending : Type :=
| Finished
| SystemExit (code : nat)
| Uncaught (e : exn).

Section Program.
Context {time duration : Type}.
Variable env : @Env time duration.
Variable host : Host duration.

(** What the process owns: the cache file, the logger, the calls made, the
    lines printed. *)
Record Process : Type := {
  the_disk : Disk;
  the_logger : DailyLogger duration;
  calls_made : list call;
  stdout : list string
}.

(** [print(line)] *)
Definition print (line : string) (p : Process) : Process :=
  {| the_disk := the_disk p; the_logger := the_logger p;
     calls_made := calls_made p; stdout := stdout p ++ [line] |}.

(** [c * n] for a one-character string *)
Fixpoint times (c : ascii) (n : nat) : string :=
  match n with
  | O => EmptyString
  | S k => String c (times c k)
  end.

(** Lines 16 to 18: [CacheManager(file_path=CACHE_FILE).clear()]. *)
Definition handle_cache_clearing (p : Process) : outcome unit * Process :=
  match Cache.__init__ CACHE_FILE true (the_disk p) with
  | Raise e => (Raise e, p)
  | Return manager =>
      match Cache.clear manager (the_disk p) (os_remove host) with
      | (Raise e, (_, d)) =>
          (Raise e, {| the_disk := d; the_logger := the_logger p;
                       calls_made := calls_made p; stdout := stdout p |})
      | (Return _, (_, d)) =>
          (Return tt,
           print "Cache cleared."
             {| the_disk := d; the_logger := the_logger p;
                calls_made := calls_made p; stdout := stdout p |})
      end
  end.

(** Lines 44 to 54: the final block. *)
Definition display (response : QueryResponse.t duration) (p : Process) : Process :=
  let p := print (times "-" 40) p in
  let p := print (PyStr.LF ++ times "=" 60) p in
  let p := print ("QUESTION : " ++ QueryResponse.question response) p in
  let p := print ("SQL QUERY: " ++ QueryResponse.sql_query response) p in
  let p := print ("ANSWER   : " ++ QueryResponse.answer response) p in
  let p :=
    if QueryResponse.from_cache response
    then print "TIME     : 0.00s (Cached)" p
    else print ("TIME     : "
                ++ str_duration env (QueryResponse.execution_time response) ++ "s") p in
  let p := print (times "=" 60) p in
  print (PyStr.LF ++ "Check logs/ for detailed execution records." ++ PyStr.LF) p.

(** Lines 20 to 54, after the cache clearing. *)
Definition serve (args : Args) (p : Process) : ending * Process :=
  let p := print (PyStr.LF ++ times "=" 50) p in
  let p := print "Welcome to Northwind-SQL-Copilot" p in
  let p := print (times "=" 50 ++ PyStr.LF) p in
  match TextToSQLPipeline.__init__ env host (negb (no_cache args))
          (the_logger p) (the_disk p) (calls_made p) with
  | (Raise e, (logger, made)) =>
      (SystemExit 1,
       print ("CRITICAL: Failed to initialize pipeline." ++ PyStr.LF
              ++ "Error: " ++ description e)
         {| the_disk := the_disk p; the_logger := logger;
            calls_made := made; stdout := stdout p |})
  | (Return pipeline_cache, (logger, made)) =>
      let p :=
        print (PyStr.LF ++ "Processing Question: " ++ question args ++ "...")
          {| the_disk := the_disk p; the_logger := logger;
             calls_made := made; stdout := stdout p |} in
      let s :=
        {| cache := pipeline_cache; disk := the_disk p; app_logger := the_logger p;
           clock := 0; calls := calls_made p;
           log_entry := ExecutionLog.new (zero env) "" "" "" "" |} in
      match run env (question args) s with
      | (Raise e, s') =>
          (Uncaught e,
           {| the_disk := disk s'; the_logger := app_logger s';
              calls_made := calls s'; stdout := stdout p |})
      | (Return response, s') =>
          let p :=
            print (PyStr.LF ++ "SQL Generated in "
                   ++ format_2f host (QueryResponse.execution_time response)
                   ++ "s (Approx)")
              {| the_disk := disk s'; the_logger := app_logger s';
                 calls_made := calls s'; stdout := stdout p |} in
          (Finished, display response p)
      end
  end.

Definition main (args : Args) (p : Process) : ending * Process :=
  if clear_cache args then
    match handle_cache_clearing p with
    | (Raise e, p') => (Uncaught e, p')
    | (Return _, p') => serve args p'
    end
  else serve args p.

End Program.
End Main.

(** ** Vocabulary of the further statements *)

Section Relations.
Context {duration : Type}.

Local Abbreviation State := (@State duration).
Local Abbreviation M := (@M duration).

(** Every execution of [m] relates the state before to the state after. *)
Definition keeps (R : State -> State -> Prop) {A : Type} (m : M A) : Prop :=
  forall s r s', m s = (r, s') -> R s s'.

(** The progress lines among [lines]. *)
Fixpoint messages (lines : list (log_line duration)) : list (log_line duration) :=
  match lines with
  | [] => []
  | Message lv m :: rest => Message lv m :: messages rest
  | Struct _ _ :: rest => messages rest
  end.

(** The log file has grown by [extra] lines and the console by the progress
    lines among them. *)
Definition logged (extra : list (log_line duration)) (l l' : DailyLogger duration)
  : Prop :=
  file_handler l' = (file_handler l ++ extra)%list
  /\ console_handler l' = (console_handler l ++ messages extra)%list.

Definition log_grows (s s' : State) : Prop :=
  exists extra, logged extra (app_logger s) (app_logger s').

End Relations.

(** The five calls of a run that misses the cache, in their order, as the
    record [l] of the run shows them; [raw_res] is what the database
    returned. *)
Definition planned_calls {duration : Type} (l : ExecutionLog.t duration)
  (raw_res : string) : list call :=
  [GetTableInfo;
   SqlLlmInvoke (or_else (ExecutionLog.sql_prompt l) "");
   DbRun (ExecutionLog.sql_query l);
   Eval raw_res;
   NlpLlmInvoke (or_else (ExecutionLog.nlp_prompt l) "")].

(** ** A concrete host *)

Module DemoHost.

Definition up : Host nat :=
  {| NLP_PROMPT_STRATEGY := "short";
     from_uri := Return tt;
     os_remove := Return tt;
     format_2f := fun d => PyRepr.str_int (Z.of_nat d) ++ ".00" |}.

(** The database server cannot be reached. *)
Definition down : Host nat :=
  {| NLP_PROMPT_STRATEGY := "short";
     from_uri := Raise (Demo.boom "Can't connect to MySQL server");
     os_remove := Return tt;
     format_2f := fun d => PyRepr.str_int (Z.of_nat d) ++ ".00" |}.

Definition silent : DailyLogger nat :=
  {| file_handler := []; console_handler := [] |}.

Definition process (d : Disk) : @Main.Process nat :=
  {| Main.the_disk := d; Main.the_logger := silent;
     Main.calls_made := []; Main.stdout := [] |}.

(** A cache file that already answers the question of [Demo]. *)
Definition answered : Disk :=
  {| cache_file :=
       Present (Return (JObj [("what is x?",
                               JObj [("answer", JStr "cached answer");
                                     ("sql_query", JStr "SELECT 0")])]));
     writable := true |}.

(** A cache file that is not UTF-8 text. *)
Definition not_utf8 : exn :=
  {| exn_class_of := UnicodeDecodeError;
     description := "'utf-8' codec can't decode byte 0xff in position 0: invalid start byte" |}.

Definition undecodable : Disk :=
  {| cache_file := Present (Raise not_utf8); writable := true |}.

Definition args (no_cache clear_cache : bool) : Main.Args :=
  {| Main.question := Demo.question; Main.no_cache := no_cache;
     Main.clear_cache := clear_cache |}.

End DemoHost.

(** * Properties *)

(** ** Strings *)

Module PyStrFacts.
Import PyStr.

Ltac each_code_point c :=
  destruct c as [[] [] [] [] [] [] [] []]; vm_compute; reflexivity.

Lemma isspace_lower_char (c : ascii) : isspace (lower_char c) = isspace c.
Proof. each_code_point c. Qed.

Lemma backtick_has_no_case (c : ascii) :
  Ascii.eqb "`" (lower_char c) = Ascii.eqb "`" c.
Proof. each_code_point c. Qed.

Lemma same_letter_isspace (a b : ascii) :
  same_letter a b -> isspace a = isspace b.
Proof.
  unfold same_letter. intros H.
  rewrite <- (isspace_lower_char a), <- (isspace_lower_char b).
  now rewrite H.
Qed.

Lemma lstrip_all_space (w : string) : all_space w = true -> lstrip w = "".
Proof.
  induction w as [|c w IH]; simpl; [reflexivity|].
  intros H. apply andb_true_iff in H as [Hc Hw]. now rewrite Hc, IH.
Qed.

Lemma rstrip_all_space (w : string) : all_space w = true -> rstrip w = "".
Proof.
  induction w as [|c w IH]; simpl; [reflexivity|].
  intros H. apply andb_true_iff in H as [Hc Hw]. now rewrite IH, Hc.
Qed.

Lemma lstrip_app_space (w s : string) :
  all_space w = true -> lstrip (w ++ s) = lstrip s.
Proof.
  induction w as [|c w IH]; simpl; [reflexivity|].
  intros H. apply andb_true_iff in H as [Hc Hw]. now rewrite Hc, IH.
Qed.

Lemma rstrip_app_space (s w : string) :
  all_space w = true -> rstrip (s ++ w) = rstrip s.
Proof.
  intros Hw. induction s as [|c s IH]; simpl.
  - now apply rstrip_all_space.
  - now rewrite IH.
Qed.

Lemma strip_app_space_r (s w : string) :
  all_space w = true -> strip (s ++ w) = strip s.
Proof.
  intros Hw. unfold strip. induction s as [|c s IH]; simpl.
  - now rewrite lstrip_all_space.
  - destruct (isspace c); [exact IH|].
    change (String c (s ++ w)) with (String c s ++ w).
    now apply rstrip_app_space.
Qed.

Lemma strip_app_space_l (w s : string) :
  all_space w = true -> strip (w ++ s) = strip s.
Proof. intros Hw. unfold strip. now rewrite lstrip_app_space. Qed.

Lemma strip_padded (l s r : string) :
  all_space l = true -> all_space r = true -> strip (l ++ s ++ r) = strip s.
Proof.
  intros Hl Hr. rewrite strip_app_space_l by assumption.
  now apply strip_app_space_r.
Qed.

Lemma same_letters_lower (s t : string) : same_letters s t -> lower s = lower t.
Proof.
  induction 1 as [|a b s t Hab _ IH]; simpl; [reflexivity|].
  unfold same_letter in Hab. now rewrite Hab, IH.
Qed.

Lemma same_letters_lstrip (s t : string) :
  same_letters s t -> same_letters (lstrip s) (lstrip t).
Proof.
  induction 1 as [|a b s t Hab Hst IH]; simpl; [constructor|].
  rewrite <- (same_letter_isspace a b Hab).
  destruct (isspace a); [exact IH|]. now constructor.
Qed.

Lemma same_letters_rstrip (s t : string) :
  same_letters s t -> same_letters (rstrip s) (rstrip t).
Proof.
  induction 1 as [|a b s t Hab Hst IH]; simpl; [constructor|].
  rewrite <- (same_letter_isspace a b Hab).
  inversion IH as [Hs Ht | a' b' s' t' Hab' Hst' Hs Ht].
  - destruct (isspace a); repeat constructor; assumption.
  - constructor; [assumption|]. now constructor.
Qed.

(** The cache key does not see surrounding whitespace or letter case. *)
Lemma normalize_variant (q q' : string) :
  variant q q' -> Cache.normalize q = Cache.normalize q'.
Proof.
  intros (l & r & l' & r' & core & core' & -> & -> & Hl & Hr & Hl' & Hr' & Hc).
  unfold Cache.normalize.
  rewrite !strip_padded by assumption.
  apply same_letters_lower. unfold strip.
  now apply same_letters_rstrip, same_letters_lstrip.
Qed.

Lemma same_letters_refl (s : string) : same_letters s s.
Proof. induction s; constructor; [reflexivity | assumption]. Qed.

End PyStrFacts.

(** ** [_clean_sql] *)

Module CleanSqlFacts.
Import PyStr PyStrFacts.

Lemma startswith_ci_fence (s : string) :
  startswith_ci fence s = startswith fence s.
Proof.
  unfold fence.
  destruct s as [|a [|b [|c s]]]; cbn [startswith startswith_ci];
    rewrite ?backtick_has_no_case; reflexivity.
Qed.

Lemma startswith_ci_fence_sql (s : string) :
  startswith_ci fence_sql s = true -> startswith fence s = true.
Proof.
  rewrite <- startswith_ci_fence. unfold fence_sql, fence.
  destruct s as [|a [|b [|c s]]]; cbn [startswith_ci]; try discriminate;
    repeat (destruct (Ascii.eqb _ _); cbn [andb]; try discriminate); reflexivity.
Qed.

Lemma sub_fences_scan (c : ascii) (rest : string) :
  sub_fences 0 (String c rest)
  = if startswith_ci fence_sql (String c rest) then sub_fences 5 rest
    else if startswith_ci fence (String c rest) then sub_fences 2 rest
    else String c (sub_fences 0 rest).
Proof. reflexivity. Qed.

Lemma sub_fences_keep (c : ascii) (rest : string) :
  startswith fence (String c rest) = false ->
  sub_fences 0 (String c rest) = String c (sub_fences 0 rest).
Proof.
  intros H. rewrite sub_fences_scan.
  destruct (startswith_ci fence_sql (String c rest)) eqn:Hsql.
  - apply startswith_ci_fence_sql in Hsql. congruence.
  - now rewrite startswith_ci_fence, H.
Qed.

(** Without a fence in it, the text goes through the substitution as it is. *)
Lemma sub_fences_fence_free (q : string) :
  contains fence q = false -> sub_fences 0 q = q.
Proof.
  induction q as [|c q IH]; [reflexivity|].
  intros H. cbn [contains] in H. apply orb_false_iff in H as [Hhead Htail].
  rewrite sub_fences_keep by assumption. now rewrite IH.
Qed.

Lemma startswith_fence_before_newline (body tail : string) :
  startswith fence (body ++ LF ++ tail) = startswith fence body.
Proof.
  unfold fence.
  destruct body as [|a [|b [|c body]]];
    cbn [append startswith LF]; try reflexivity;
    change (Ascii.eqb "`" "010") with false;
    rewrite ?andb_false_r, ?andb_false_l; reflexivity.
Qed.

(** A fence-free body followed by a newline and the closing fence. *)
Lemma sub_fences_closing (body : string) :
  contains fence body = false ->
  sub_fences 0 (body ++ LF ++ fence) = body ++ LF.
Proof.
  induction body as [|c body IH]; [reflexivity|].
  intros H. cbn [contains] in H. apply orb_false_iff in H as [Hhead Htail].
  change (String c body ++ LF ++ fence) with (String c (body ++ LF ++ fence)).
  rewrite sub_fences_keep.
  - rewrite IH by assumption. reflexivity.
  - change (String c (body ++ LF ++ fence)) with (String c body ++ LF ++ fence).
    now rewrite startswith_fence_before_newline.
Qed.

Lemma strip_between_newlines (body : string) :
  strip (LF ++ body ++ LF) = strip body.
Proof. now apply strip_padded. Qed.

Lemma tag_sql_shape (tag : string) :
  lower tag = "sql" ->
  exists a b c, tag = String a (String b (String c ""))
    /\ lower_char a = "s"%char /\ lower_char b = "q"%char /\ lower_char c = "l"%char.
Proof.
  destruct tag as [|a [|b [|c [|d tag]]]]; simpl; try discriminate.
  intros H. injection H as Ha Hb Hc. now exists a, b, c.
Qed.

Lemma sub_fences_open_plain (rest : string) :
  sub_fences 0 (fence ++ "" ++ LF ++ rest) = sub_fences 0 (LF ++ rest).
Proof. reflexivity. Qed.

Lemma sub_fences_open_tagged (tag rest : string) :
  lower tag = "sql" ->
  sub_fences 0 (fence ++ tag ++ rest) = sub_fences 0 rest.
Proof.
  intros H. apply tag_sql_shape in H as (a & b & c & -> & Ha & Hb & Hc).
  unfold fence. cbn [append]. rewrite sub_fences_scan.
  unfold fence_sql. cbn [startswith_ci].
  rewrite !backtick_has_no_case, Ha, Hb, Hc.
  reflexivity.
Qed.

Lemma clean_sql_fenced (tag body : string) :
  tag = "" \/ lower tag = "sql" ->
  contains fence body = false ->
  _clean_sql (fence ++ tag ++ LF ++ body ++ LF ++ fence) = strip body.
Proof.
  intros Htag Hbody. unfold _clean_sql.
  assert (Hrest : sub_fences 0 (LF ++ body ++ LF ++ fence) = LF ++ body ++ LF).
  { change (LF ++ body ++ LF ++ fence) with (String "010" (body ++ LF ++ fence)).
    rewrite sub_fences_keep by reflexivity.
    now rewrite sub_fences_closing. }
  destruct Htag as [-> | Htag].
  - rewrite sub_fences_open_plain, Hrest. apply strip_between_newlines.
  - rewrite sub_fences_open_tagged by assumption.
    rewrite Hrest. apply strip_between_newlines.
Qed.

End CleanSqlFacts.

(** C7.  The sanitizer maps ["SELECT 1"], and ["SELECT 1"] fenced with the
    tag [sql], with no tag and with the tag [SQL], to exactly ["SELECT 1"].
    A text without fence markers is only trimmed, and a fence-free body
    wrapped in an opening fence (untagged, or tagged [sql] in any case) and a
    closing fence comes out as the trimmed body. *)
Theorem clean_sql_strips_fences :
  _clean_sql "SELECT 1" = "SELECT 1"
  /\ _clean_sql ("```sql" ++ PyStr.LF ++ "SELECT 1" ++ PyStr.LF ++ "```") = "SELECT 1"
  /\ _clean_sql ("```" ++ PyStr.LF ++ "SELECT 1" ++ PyStr.LF ++ "```") = "SELECT 1"
  /\ _clean_sql ("```SQL" ++ PyStr.LF ++ "SELECT 1" ++ PyStr.LF ++ "```") = "SELECT 1"
  /\ (forall query,
        PyStr.contains fence query = false ->
        _clean_sql query = PyStr.strip query)
  /\ (forall tag body,
        tag = "" \/ PyStr.lower tag = "sql" ->
        PyStr.contains fence body = false ->
        _clean_sql (fence ++ tag ++ PyStr.LF ++ body ++ PyStr.LF ++ fence)
        = PyStr.strip body).
Proof.
  repeat split; try reflexivity.
  - intros query H. unfold _clean_sql.
    now rewrite CleanSqlFacts.sub_fences_fence_free.
  - intros tag body. apply CleanSqlFacts.clean_sql_fenced.
Qed.

Lemma clean_sql_strips_fences_witness :
  _clean_sql ("  SELECT `id` FROM t" ++ PyStr.LF) = "SELECT `id` FROM t"
  /\ _clean_sql (fence ++ "sQl" ++ PyStr.LF ++ "SELECT `id` FROM t" ++ PyStr.LF ++ fence)
     = "SELECT `id` FROM t".
Proof.
  destruct clean_sql_strips_fences as (_ & _ & _ & _ & Hfree & Hfenced).
  split.
  - rewrite (Hfree ("  SELECT `id` FROM t" ++ PyStr.LF)); reflexivity.
  - rewrite (Hfenced "sQl" "SELECT `id` FROM t"); [reflexivity | | reflexivity].
    right. reflexivity.
Defined.

(** ** [_sanitize_result] *)

(** The cases of [_sanitize_result].  A result without truth (an empty row
    sequence, [None]) becomes ["[]"]; a non-empty list whose first row is a
    1-tuple becomes the string form of that row's value; any other non-empty
    list, in particular one whose first row has several columns, becomes the
    string form of the whole list. *)
Lemma sanitize_result_cases (raw_result : pyval) :
  (PyRepr.truth raw_result = false -> _sanitize_result raw_result = "[]")
  /\ (forall x rest,
        raw_result = PyList (PyTuple [x] :: rest) ->
        _sanitize_result raw_result = PyRepr.str x)
  /\ (forall first rest,
        raw_result = PyList (first :: rest) ->
        (forall x, first <> PyTuple [x]) ->
        _sanitize_result raw_result = PyRepr.str raw_result).
Proof.
  repeat split.
  - intros H. unfold _sanitize_result. now rewrite H.
  - intros x rest ->. reflexivity.
  - intros first rest -> Hfirst. unfold _sanitize_result. cbn [PyRepr.truth negb].
    destruct first as [| | | | items | |]; try reflexivity.
    destruct items as [|x [|y items]]; try reflexivity.
    now destruct (Hfirst x).
Qed.

Lemma sanitize_result_cases_witness :
  _sanitize_result (PyList []) = "[]"
  /\ _sanitize_result PyNone = "[]"
  /\ _sanitize_result (PyList [PyTuple [PyInt 42]]) = "42"
  /\ _sanitize_result (PyList [PyTuple [PyInt 1; PyStr "a"]]) = "[(1, 'a')]"
  /\ _sanitize_result (PyList [PyTuple [PyStr "Alice"]; PyTuple [PyStr "Bob"]]) = "Alice".
Proof.
  split; [| split; [| split; [| split]]].
  - apply (proj1 (sanitize_result_cases (PyList []))). reflexivity.
  - apply (proj1 (sanitize_result_cases PyNone)). reflexivity.
  - rewrite (proj1 (proj2 (sanitize_result_cases (PyList [PyTuple [PyInt 42]])))
               (PyInt 42) []); reflexivity.
  - rewrite (proj2 (proj2 (sanitize_result_cases (PyList [PyTuple [PyInt 1; PyStr "a"]])))
               (PyTuple [PyInt 1; PyStr "a"]) []);
      [reflexivity | reflexivity | discriminate].
  - rewrite (proj1 (proj2 (sanitize_result_cases
                             (PyList [PyTuple [PyStr "Alice"]; PyTuple [PyStr "Bob"]])))
               (PyStr "Alice") [PyTuple [PyStr "Bob"]]); reflexivity.
Defined.

(** C6, at the input that breaks it.  An empty or absent result becomes
    ["[]"], the one-row one-column result [[(42,)]] becomes ["42"] and the
    multi-column row [[(1, 'a')]] keeps its full string form, as the claim
    says.  But a one-column result of several rows does not keep the string
    form of the row sequence: only the row count [len(raw_result) > 0] is
    tested, so the value of the first row is returned and every later row is
    dropped. *)
Theorem sanitize_result_drops_later_rows :
  _sanitize_result (PyList []) = "[]"
  /\ _sanitize_result PyNone = "[]"
  /\ _sanitize_result (PyList [PyTuple [PyInt 42]]) = "42"
  /\ _sanitize_result (PyList [PyTuple [PyInt 1; PyStr "a"]]) = "[(1, 'a')]"
  /\ (forall x second rest,
        _sanitize_result (PyList (PyTuple [x] :: second :: rest)) = PyRepr.str x)
  /\ (let rows := PyList [PyTuple [PyStr "Alice"]; PyTuple [PyStr "Bob"]] in
      _sanitize_result rows = "Alice"
      /\ PyRepr.str rows = "[('Alice',), ('Bob',)]"
      /\ _sanitize_result rows <> PyRepr.str rows).
Proof. repeat split; discriminate. Qed.

(** ** The cache store *)

Module CacheFacts.

Lemma get_blank (path : string) (on : bool) (question : string) :
  Cache.get (Cache.blank path on) question = Return JNull.
Proof. unfold Cache.get. destruct on; reflexivity. Qed.

(** A missing file, a file that cannot be opened and a file that is not JSON
    all give the empty map. *)
Lemma load_tolerated (path : string) (d : Disk) :
  cache_file d = Missing
  \/ (exists e, cache_file d = Present (Raise e) /\ Cache.caught_on_load e = true) ->
  Cache.__init__ path true d = Return (Cache.blank path true).
Proof.
  unfold Cache.__init__, Cache._load_cache. cbn [Cache.blank enabled negb].
  intros [-> | (e & -> & He)]; [reflexivity|]. now rewrite He.
Qed.

Lemma get_returns_sane (self : CacheManager) (question : string) (v : json) :
  Cache.get self question = Return v -> sane self.
Proof.
  unfold Cache.get, sane. destruct (enabled self); cbn [negb]; [|now left].
  destruct (_cache self); try discriminate. intros _. right. now eexists.
Qed.

Lemma set_sane (self : CacheManager) (d : Disk) (question : string) (data : json) :
  sane self -> exists c' d', Cache.set self d question data = Return (c', d').
Proof.
  unfold Cache.set. intros [H | (fields & H)]; rewrite H.
  - now exists self, d.
  - destruct (enabled self); cbn [negb]; eauto.
Qed.

Lemma lookup_store (key : string) (value : json) (fields : list (string * json)) :
  Json.lookup key (Json.store key value fields) = Some value.
Proof.
  induction fields as [|[k v] fields IH]; cbn [Json.store Json.lookup].
  - now rewrite String.eqb_refl.
  - destruct (String.eqb k key) eqn:E; cbn [Json.lookup]; now rewrite E.
Qed.

(** What was stored under a question is found under each of its variants. *)
Lemma get_after_set (self c' : CacheManager) (d d' : Disk)
  (question question' : string) (data : json) :
  enabled self = true ->
  Cache.set self d question data = Return (c', d') ->
  variant question question' ->
  Cache.get c' question' = Return data.
Proof.
  unfold Cache.set, Cache.get. intros Hon Hset Hvar. rewrite Hon in Hset.
  cbn [negb] in Hset. destruct (_cache self) eqn:Hc; try discriminate.
  injection Hset as <- _. cbn [Cache.with_cache enabled _cache]. rewrite Hon.
  cbn [negb]. rewrite <- (PyStrFacts.normalize_variant _ _ Hvar).
  now rewrite lookup_store.
Qed.

End CacheFacts.

(** C8, at the input that breaks it.  A cache file that is missing, cannot be
    read or is not JSON gives an empty map on which every [get] misses.  A
    file holding a JSON document that is not an object (here a list) is
    loaded as it is: the constructor returns, and every later [get] raises
    [AttributeError].  A file that is not UTF-8 text makes the constructor
    itself raise: [UnicodeDecodeError] is not in the [except] clause. *)
Theorem cache_load_corrupt_file (path question msg : string) (w : bool)
  (items : list json) :
  let disk_of f := {| cache_file := f; writable := w |} in
  let json_error := {| exn_class_of := JSONDecodeError; description := msg |} in
  let os_error := {| exn_class_of := OSError; description := msg |} in
  let unicode_error := {| exn_class_of := UnicodeDecodeError; description := msg |} in
  Cache.__init__ path true (disk_of Missing) = Return (Cache.blank path true)
  /\ Cache.__init__ path true (disk_of (Present (Raise json_error)))
     = Return (Cache.blank path true)
  /\ Cache.__init__ path true (disk_of (Present (Raise os_error)))
     = Return (Cache.blank path true)
  /\ Cache.get (Cache.blank path true) question = Return JNull
  /\ (exists self,
        Cache.__init__ path true (disk_of (Present (Return (JArr items)))) = Return self
        /\ Cache.get self question = Raise (Cache.attribute_error (JArr items) "get"))
  /\ Cache.__init__ path true (disk_of (Present (Raise unicode_error)))
     = Raise unicode_error.
Proof.
  cbv zeta. repeat split.
  eexists. split; reflexivity.
Qed.

(** C9.  A cache store that is switched off misses on every question, and
    [set] and [_save_cache] leave the map and the file as they were.
    Constructing it switched off does not read the file. *)
Theorem disabled_cache_is_inert (self : CacheManager) (d : Disk)
  (question : string) (response_data : json) :
  enabled self = false ->
  Cache.get self question = Return JNull
  /\ Cache.set self d question response_data = Return (self, d)
  /\ Cache._save_cache self d = d
  /\ Cache.__init__ (file_path self) false d
     = Return (Cache.blank (file_path self) false).
Proof.
  intros H. unfold Cache.get, Cache.set, Cache._save_cache. rewrite H.
  repeat split.
Qed.

Lemma disabled_cache_is_inert_witness :
  let d := {| cache_file := Present (Return (JObj [("q", JStr "kept")]));
              writable := true |} in
  let entry := JObj [("answer", JStr "a"); ("sql_query", JStr "SELECT 1")] in
  Cache.__init__ "query_cache.json" false d = Return (Demo.empty_cache false)
  /\ Cache.get (Demo.empty_cache false) "q" = Return JNull
  /\ Cache.set (Demo.empty_cache false) d "q" entry = Return (Demo.empty_cache false, d).
Proof.
  cbv zeta.
  pose proof (disabled_cache_is_inert (Demo.empty_cache false)
                {| cache_file := Present (Return (JObj [("q", JStr "kept")]));
                   writable := true |}
                "q" (JObj [("answer", JStr "a"); ("sql_query", JStr "SELECT 1")])
                eq_refl) as (Hget & Hset & _ & Hinit).
  repeat split; assumption.
Defined.

(** ** The run *)

Section RunFacts.
Context {time duration : Type}.
Variable env : @Env time duration.

Local Abbreviation State := (@State duration).
Local Abbreviation Log := (ExecutionLog.t duration).

Ltac step_monad :=
  unfold bind, ret, raise, lift, now, now_isoformat, invoke, assign,
    the_log_entry, log_info, log_error, log_struct, cache_get, try_except,
    with_log_entry, with_app_logger, tick in *.

Lemma records_app (l l' : list (log_line duration)) :
  Logger.records (l ++ l') = (Logger.records l ++ Logger.records l')%list.
Proof.
  induction l as [|[lv m | label data] l IH]; cbn [Logger.records app];
    [reflexivity | exact IH | now rewrite IH].
Qed.

Lemma records_message (l : list (log_line duration)) (lv : level) (m : string) :
  Logger.records (l ++ [Message lv m]) = Logger.records l.
Proof. rewrite records_app. cbn [Logger.records]. apply app_nil_r. Qed.

Lemma records_struct (l : list (log_line duration)) (label : string) (data : Log) :
  Logger.records (l ++ [Struct label data]) = (Logger.records l ++ [data])%list.
Proof. now rewrite records_app. Qed.

(** *** What each stage touches *)

Lemma generate_sql_effect (q : string) (s : State) (r : outcome unit) (s' : State) :
  generate_sql env q s = (r, s') ->
  cache s' = cache s /\ disk s' = disk s /\ persisted s' = persisted s
  /\ ExecutionLog.success (log_entry s') = ExecutionLog.success (log_entry s)
  /\ ExecutionLog.error (log_entry s') = ExecutionLog.error (log_entry s)
  /\ ExecutionLog.final_answer (log_entry s') = ExecutionLog.final_answer (log_entry s)
  /\ match r with
     | Return _ =>
         exists raw, ExecutionLog.sql_query (log_entry s')
                     = Some (_clean_sql (reply_text raw))
     | Raise _ =>
         ExecutionLog.sql_query (log_entry s') = ExecutionLog.sql_query (log_entry s)
     end.
Proof.
  unfold generate_sql, persisted. step_monad.
  destruct (get_table_info env) as [schema|e].
  - destruct (sql_llm env (get_sql_prompt env schema q)) as [raw|e];
      intros H; injection H as <- <-; cbn;
      rewrite ?records_message; repeat split; eauto.
  - intros H; injection H as <- <-; cbn. repeat split.
Qed.

Lemma execute_sql_effect (s : State) (r : outcome unit) (s' : State) :
  execute_sql env s = (r, s') ->
  cache s' = cache s /\ disk s' = disk s /\ persisted s' = persisted s
  /\ ExecutionLog.success (log_entry s') = ExecutionLog.success (log_entry s)
  /\ ExecutionLog.error (log_entry s') = ExecutionLog.error (log_entry s)
  /\ ExecutionLog.final_answer (log_entry s') = ExecutionLog.final_answer (log_entry s)
  /\ ExecutionLog.sql_query (log_entry s') = ExecutionLog.sql_query (log_entry s).
Proof.
  unfold execute_sql, persisted. step_monad. cbn.
  destruct (db_run env (ExecutionLog.sql_query (log_entry s))) as [raw_res|e].
  - destruct (eval env raw_res) as [value|e];
      intros H; injection H as <- <-; cbn; repeat split.
  - intros H; injection H as <- <-; cbn. repeat split.
Qed.

(** An execution stage that completes has had an answer from the database
    that [eval] accepted. *)
Lemma execute_sql_completes (s s' : State) :
  completes (execute_sql env) s s' ->
  exists raw_res value,
    db_run env (ExecutionLog.sql_query (log_entry s)) = Return raw_res
    /\ eval env raw_res = Return value.
Proof.
  unfold completes, execute_sql. step_monad. cbn.
  destruct (db_run env (ExecutionLog.sql_query (log_entry s))) as [raw_res|e];
    [|discriminate].
  destruct (eval env raw_res) as [value|e] eqn:E; [|discriminate].
  intros _. exists raw_res, value. now split.
Qed.

Lemma generate_answer_effect (q : string) (s : State) (r : outcome unit) (s' : State) :
  generate_answer env q s = (r, s') ->
  cache s' = cache s /\ disk s' = disk s /\ persisted s' = persisted s
  /\ ExecutionLog.error (log_entry s') = ExecutionLog.error (log_entry s)
  /\ ExecutionLog.sql_query (log_entry s') = ExecutionLog.sql_query (log_entry s)
  /\ match r with
     | Return _ =>
         ExecutionLog.success (log_entry s') = true
         /\ exists raw, ExecutionLog.final_answer (log_entry s')
                        = Some (PyStr.strip (reply_text raw))
     | Raise _ =>
         ExecutionLog.success (log_entry s') = ExecutionLog.success (log_entry s)
         /\ ExecutionLog.final_answer (log_entry s')
            = ExecutionLog.final_answer (log_entry s)
     end.
Proof.
  unfold generate_answer, persisted. step_monad. cbn.
  destruct (nlp_llm env _) as [raw|e];
    intros H; injection H as <- <-; cbn; repeat split; eauto.
Qed.

Lemma save_to_cache_effect (q : string) (s : State) :
  sane (cache s) ->
  exists s',
    save_to_cache q s = (Return tt, s')
    /\ Cache.set (cache s) (disk s) q
         (JObj [("answer", Json.of_optional (ExecutionLog.final_answer (log_entry s)));
                ("sql_query", Json.of_optional (ExecutionLog.sql_query (log_entry s)))])
       = Return (cache s', disk s')
    /\ log_entry s' = log_entry s /\ app_logger s' = app_logger s
    /\ calls s' = calls s /\ clock s' = clock s.
Proof.
  intros Hsane. unfold save_to_cache, cache_set. step_monad.
  destruct (CacheFacts.set_sane (cache s) (disk s) q
              (JObj [("answer", Json.of_optional (ExecutionLog.final_answer (log_entry s)));
                     ("sql_query", Json.of_optional (ExecutionLog.sql_query (log_entry s)))])
              Hsane) as (c' & d' & Hset).
  rewrite Hset. eexists. split; [reflexivity|]. cbn. repeat split.
Qed.

(** *** The [try] statement *)

Lemma stage_raises_run_try (q : string) (s0 : State) (e : exn) :
  stage_raises env q s0 e -> exists s3, run_try env q s0 = (Raise e, s3).
Proof.
  unfold stage_raises, raises, completes, run_try, bind.
  intros [H | (s1 & H1 & [H | (s2 & H2 & H)])].
  - destruct (generate_sql env q s0) as [r s]. cbn in H. subst r. eauto.
  - rewrite H1. destruct (execute_sql env s1) as [r s]. cbn in H. subst r. eauto.
  - rewrite H1, H2. destruct (generate_answer env q s2) as [r s]. cbn in H.
    subst r. eauto.
Qed.

Lemma run_try_effect (q : string) (s0 : State) (r3 : outcome unit) (s3 : State) :
  sane (cache s0) ->
  run_try env q s0 = (r3, s3) ->
  persisted s3 = persisted s0
  /\ ExecutionLog.error (log_entry s3) = ExecutionLog.error (log_entry s0)
  /\ (forall e, raises (generate_sql env q) s0 e ->
        ExecutionLog.sql_query (log_entry s3) = ExecutionLog.sql_query (log_entry s0))
  /\ (forall s1, completes (generate_sql env q) s0 s1 ->
        ExecutionLog.sql_query (log_entry s3) = ExecutionLog.sql_query (log_entry s1)
        /\ exists raw, ExecutionLog.sql_query (log_entry s1)
                       = Some (_clean_sql (reply_text raw)))
  /\ match r3 with
     | Return _ =>
         (exists s, stages_complete env q s0 s
            /\ Cache.set (cache s0) (disk s0) q
                 (JObj [("answer", Json.of_optional (ExecutionLog.final_answer (log_entry s3)));
                        ("sql_query", Json.of_optional (ExecutionLog.sql_query (log_entry s3)))])
               = Return (cache s3, disk s3)
            /\ calls s3 = calls s)
         /\ ExecutionLog.success (log_entry s3) = true
         /\ exists raw, ExecutionLog.final_answer (log_entry s3)
                        = Some (PyStr.strip (reply_text raw))
     | Raise e =>
         stage_raises env q s0 e
         /\ cache s3 = cache s0 /\ disk s3 = disk s0
         /\ ExecutionLog.success (log_entry s3) = ExecutionLog.success (log_entry s0)
     end.
Proof.
  intros Hsane. unfold run_try, bind, stage_raises, stages_complete, raises, completes.
  destruct (generate_sql env q s0) as [r1 s1] eqn:G.
  pose proof (generate_sql_effect _ _ _ _ G) as (Gc & Gd & Gp & Gs & Ge & Ga & Gq).
  destruct r1 as [[]|e1].
  2:{ intros H; injection H as <- <-. cbn [fst].
      refine (conj Gp (conj Ge (conj _ (conj _ _)))).
      - intros e _. exact Gq.
      - intros s1' H. discriminate.
      - refine (conj _ (conj Gc (conj Gd Gs))). now left. }
  destruct (execute_sql env s1) as [r2 s2] eqn:X.
  pose proof (execute_sql_effect _ _ _ X) as (Xc & Xd & Xp & Xs & Xe & Xa & Xq).
  destruct r2 as [[]|e2].
  2:{ intros H; injection H as <- <-. cbn [fst].
      refine (conj _ (conj _ (conj _ (conj _ (conj _ (conj _ (conj _ _)))))));
        [congruence | congruence | intros e H; discriminate
        | intros s1' H; injection H as <-; split; [congruence | exact Gq]
        | | congruence | congruence | congruence ].
      right. exists s1. split; [reflexivity|]. left. now rewrite X. }
  destruct (generate_answer env q s2) as [r s] eqn:A.
  pose proof (generate_answer_effect _ _ _ _ A) as (Ac & Ad & Ap & Ae & Aq & Ar).
  destruct r as [[]|e].
  2:{ intros H; injection H as <- <-. cbn [fst]. destruct Ar as (As & Aa).
      refine (conj _ (conj _ (conj _ (conj _ (conj _ (conj _ (conj _ _)))))));
        [congruence | congruence | intros e' H; discriminate
        | intros s1' H; injection H as <-; split; [congruence | exact Gq]
        | | congruence | congruence | congruence ].
      right. exists s1. split; [reflexivity|]. right. exists s2.
      split; [exact X | now rewrite A]. }
  destruct Ar as (As & raw & Aa).
  assert (Hs : sane (cache s)) by congruence.
  destruct (save_to_cache_effect q s Hs) as (s' & Hsave & Hset & Hl & Hlog & Hcalls & _).
  rewrite Hsave. intros H; injection H as <- <-. cbn [fst].
  rewrite Hl. unfold persisted in *. rewrite Hlog.
  refine (conj _ (conj _ (conj _ (conj _ (conj _ (conj As _))))));
    [congruence | congruence | intros e H; discriminate
    | intros s1' H; injection H as <-; split; [congruence | exact Gq]
    | | eauto ].
  exists s. refine (conj _ (conj _ Hcalls)).
  - exists s1, s2. repeat split; assumption.
  - replace (cache s0) with (cache s) by congruence.
    replace (disk s0) with (disk s) by congruence. exact Hset.
Qed.

(** The [try] statement always completes; [finally] stamps and persists. *)
Lemma guarded_outcome (q : string) (t : time) (s0 : State)
  (r3 : outcome unit) (s3 : State) :
  run_try env q s0 = (r3, s3) ->
  exists s5,
    try_except_finally (run_try env q) run_except (run_finally env t) s0
    = (Return tt, s5)
    /\ cache s5 = cache s3 /\ disk s5 = disk s3 /\ calls s5 = calls s3
    /\ persisted s5 = (persisted s3 ++ [log_entry s5])%list
    /\ log_entry s5
       = ExecutionLog.set_total_duration
           (round_elapsed env t (time_time env (pred (clock s5))))
           match r3 with
           | Return _ => log_entry s3
           | Raise e =>
               ExecutionLog.set_final_answer (Some ("Error: " ++ description e))
                 (ExecutionLog.set_error (Some (description e)) (log_entry s3))
           end.
Proof.
  intros H. unfold try_except_finally, try_except. rewrite H.
  unfold run_except, run_finally, persisted. step_monad.
  destruct r3 as [[]|e]; cbn; eexists; (split; [reflexivity|]); cbn;
    rewrite ?records_struct, ?records_message; repeat split.
Qed.

(** *** From the call of [run] to its [try] statement *)

Lemma try_entry_effect (q : string) (s : State) (t : time) (s0 : State) :
  try_entry env q s = Some (t, s0) ->
  run env q s
  = bind (try_except_finally (run_try env q) run_except (run_finally env t))
      (fun _ => respond q) s0
  /\ cache s0 = cache s /\ disk s0 = disk s /\ calls s0 = calls s
  /\ persisted s0 = persisted s
  /\ log_entry s0
     = ExecutionLog.new (zero env) (isoformat_now env (clock s)) q
         (SQL_MODEL env) (NLP_MODEL env)
  /\ sane (cache s0)
  /\ (exists v, Cache.get (cache s) q = Return v /\ Json.truth v = false)
  /\ t = time_time env (S (clock s)).
Proof.
  unfold try_entry, run, run_uncached, cache_check, persisted. step_monad. cbn.
  destruct (Cache.get (cache s) q) as [v|e] eqn:Hget; [|discriminate].
  destruct (Json.truth v) eqn:Hv; [discriminate|].
  intros H; injection H as <- <-. cbn.
  rewrite records_message. repeat split.
  - eapply CacheFacts.get_returns_sane; eassumption.
  - eauto.
Qed.

(** The whole of a run that misses the cache, from the outcome of its [try]
    body. *)
Lemma run_outcome (q : string) (s : State) (t : time) (s0 : State)
  (r3 : outcome unit) (s3 : State) :
  try_entry env q s = Some (t, s0) ->
  run_try env q s0 = (r3, s3) ->
  exists s5,
    run env q s
    = (QueryResponse.new q
         (Json.of_optional (ExecutionLog.final_answer (log_entry s5)))
         (JStr (or_else (ExecutionLog.sql_query (log_entry s5)) "Failed"))
         (ExecutionLog.total_duration (log_entry s5)) false, s5)
    /\ cache s5 = cache s3 /\ disk s5 = disk s3 /\ calls s5 = calls s3
    /\ persisted s5 = (persisted s ++ [log_entry s5])%list
    /\ log_entry s5
       = ExecutionLog.set_total_duration
           (round_elapsed env t (time_time env (pred (clock s5))))
           match r3 with
           | Return _ => log_entry s3
           | Raise e =>
               ExecutionLog.set_final_answer (Some ("Error: " ++ description e))
                 (ExecutionLog.set_error (Some (description e)) (log_entry s3))
           end.
Proof.
  intros Hentry Htry.
  destruct (try_entry_effect _ _ _ _ Hentry)
    as (Hrun & Hc & Hd & Hcalls & Hp & Hl & Hsane & _ & _).
  destruct (run_try_effect _ _ _ _ Hsane Htry) as (Hp3 & _).
  destruct (guarded_outcome q t s0 r3 s3 Htry) as (s5 & Hg & Gc & Gd & Gcalls & Gp & Gl).
  exists s5. rewrite Hrun. unfold bind at 1. rewrite Hg.
  unfold respond. step_monad.
  repeat split; try assumption. congruence.
Qed.

End RunFacts.

(** ** The claims about [run] *)

Section RunClaims.
Context {time duration : Type}.
Variable env : @Env time duration.

Local Abbreviation State := (@State duration).

Lemma stages_complete_run_try (q : string) (s0 s3 : State) :
  sane (cache s0) ->
  stages_complete env q s0 s3 ->
  exists s4, run_try env q s0 = (Return tt, s4).
Proof.
  intros Hsane (s1 & s2 & H1 & H2 & H3). unfold completes in *.
  pose proof (generate_sql_effect _ _ _ _ _ H1) as (Gc & _).
  pose proof (execute_sql_effect _ _ _ _ H2) as (Xc & _).
  pose proof (generate_answer_effect _ _ _ _ _ H3) as (Ac & _).
  assert (Hs : sane (cache s3)) by congruence.
  destruct (save_to_cache_effect q s3 Hs) as (s4 & Hsave & _).
  exists s4. unfold run_try, bind. now rewrite H1, H2, H3.
Qed.

(** A run served from the cache: no stage, no record, no write. *)
Lemma run_cache_hit (q : string) (s : State) (a sql : string) :
  Cache.get (cache s) q
  = Return (JObj [("answer", JStr a); ("sql_query", JStr sql)]) ->
  exists s',
    run env q s
    = (Return {| QueryResponse.question := q; QueryResponse.answer := a;
                 QueryResponse.sql_query := sql;
                 QueryResponse.execution_time := zero env;
                 QueryResponse.from_cache := true |}, s')
    /\ calls s' = calls s /\ persisted s' = persisted s
    /\ cache s' = cache s /\ disk s' = disk s.
Proof.
  intros H. unfold run, cache_check, serve_cached, persisted.
  unfold bind, ret, lift, now, now_isoformat, assign, cache_get, log_info,
    with_log_entry, with_app_logger, tick.
  cbn. rewrite H. cbn. eexists. split; [reflexivity|]. cbn.
  rewrite records_message. repeat split.
Qed.

(** C1, as the code has it.  When one of the three stages raises, [run]
    returns a response: its answer is ["Error: "] followed by the exception's
    description; its [sql_query] is ["Failed"] when the generation stage
    raised, and otherwise the cleaned SQL, unless that is the empty string,
    which is reported as ["Failed"] too. *)
Theorem run_contains_stage_failures (q : string) (s : State) (t : time)
  (s0 : State) (e : exn) :
  try_entry env q s = Some (t, s0) ->
  stage_raises env q s0 e ->
  exists resp s',
    run env q s = (Return resp, s')
    /\ QueryResponse.question resp = q
    /\ QueryResponse.answer resp = "Error: " ++ description e
    /\ QueryResponse.from_cache resp = false
    /\ ExecutionLog.error (log_entry s') = Some (description e)
    /\ (raises (generate_sql env q) s0 e -> QueryResponse.sql_query resp = "Failed")
    /\ (forall s1, completes (generate_sql env q) s0 s1 ->
          exists sql,
            ExecutionLog.sql_query (log_entry s1) = Some sql
            /\ QueryResponse.sql_query resp
               = if PyStr.nonempty sql then sql else "Failed").
Proof.
  intros Hentry Hstage.
  destruct (stage_raises_run_try env q s0 e Hstage) as (s3 & Htry).
  destruct (try_entry_effect env _ _ _ _ Hentry)
    as (_ & _ & _ & _ & _ & Hnew & Hsane & _ & _).
  destruct (run_try_effect env _ _ _ _ Hsane Htry) as (_ & _ & Hgen & Hsql & _).
  destruct (run_outcome env _ _ _ _ _ _ Hentry Htry) as (s5 & Hrun & _ & _ & _ & _ & Hlog).
  rewrite Hlog in Hrun. cbn in Hrun.
  eexists. exists s5. split; [exact Hrun|]. rewrite Hlog. cbn.
  refine (conj eq_refl (conj eq_refl (conj eq_refl (conj eq_refl (conj _ _))))).
  - intros Hraise. rewrite (Hgen e Hraise), Hnew. reflexivity.
  - intros s1 H1. destruct (Hsql s1 H1) as (H31 & raw & Hraw).
    exists (_clean_sql (reply_text raw)). split; [exact Hraw|].
    rewrite H31, Hraw. reflexivity.
Qed.

(** C2.  A run that misses the cache returns, whatever its stages do, and
    leaves exactly one more structured record in the log file: its own
    [ExecutionLog], with [total_duration] stamped as the rounded time from
    [start_total] to the last clock read of the run. *)
Theorem run_persists_one_record (q : string) (s : State) (t : time)
  (s0 : State) (r : outcome (QueryResponse.t duration)) (s' : State) :
  try_entry env q s = Some (t, s0) ->
  run env q s = (r, s') ->
  persisted s' = (persisted s ++ [log_entry s'])%list
  /\ List.length (persisted s') = S (List.length (persisted s))
  /\ ExecutionLog.total_duration (log_entry s')
     = round_elapsed env t (time_time env (pred (clock s')))
  /\ exists resp, r = Return resp.
Proof.
  intros Hentry Hrun.
  destruct (run_try env q s0) as [r3 s3] eqn:Htry.
  destruct (try_entry_effect env _ _ _ _ Hentry)
    as (_ & _ & _ & _ & _ & _ & Hsane & _ & _).
  destruct (run_try_effect env _ _ _ _ Hsane Htry) as (_ & _ & _ & _ & Hcase).
  destruct (run_outcome env _ _ _ _ _ _ Hentry Htry)
    as (s5 & Hrun5 & _ & _ & _ & Hp & Hlog).
  rewrite Hrun5 in Hrun. injection Hrun as <- <-.
  split; [exact Hp|]. split.
  { rewrite Hp, length_app. cbn. lia. }
  split.
  { rewrite Hlog. reflexivity. }
  rewrite Hlog. destruct r3 as [[]|e]; cbn.
  - destruct Hcase as (_ & _ & raw & ->). cbn. eauto.
  - eauto.
Qed.

(** C3.  The record a run that misses the cache persists is in exactly one
    of two shapes: succeeded ([success] true, [final_answer] set, [error]
    unset) or failed ([success] false, [error] set). *)
Theorem finalized_record_invariant (q : string) (s : State) (t : time)
  (s0 : State) (r : outcome (QueryResponse.t duration)) (s' : State) :
  try_entry env q s = Some (t, s0) ->
  run env q s = (r, s') ->
  exists l,
    persisted s' = (persisted s ++ [l])%list
    /\ (succeeded l \/ failed l)
    /\ ~ (succeeded l /\ failed l).
Proof.
  intros Hentry Hrun.
  destruct (run_try env q s0) as [r3 s3] eqn:Htry.
  destruct (try_entry_effect env _ _ _ _ Hentry)
    as (_ & _ & _ & _ & _ & Hnew & Hsane & _ & _).
  destruct (run_try_effect env _ _ _ _ Hsane Htry) as (_ & Herr & _ & _ & Hcase).
  destruct (run_outcome env _ _ _ _ _ _ Hentry Htry)
    as (s5 & Hrun5 & _ & _ & _ & Hp & Hlog).
  rewrite Hrun5 in Hrun. injection Hrun as <- <-.
  exists (log_entry s5). split; [exact Hp|]. split.
  - rewrite Hlog. unfold succeeded, failed. destruct r3 as [[]|e]; cbn.
    + left. destruct Hcase as (_ & Hs & raw & Ha).
      rewrite Hs, Ha, Herr, Hnew. cbn. repeat split. discriminate.
    + right. destruct Hcase as (_ & _ & _ & Hs).
      rewrite Hs, Hnew. cbn. split; [reflexivity | discriminate].
  - unfold succeeded, failed. intros ((Ht & _) & (Hf & _)). congruence.
Qed.

(** C4.  A run in which a stage raises leaves the cache map and the cache
    file as they were; if either differs after a run that misses the cache,
    all three stages completed. *)
Theorem cache_untouched_on_failure (q : string) (s : State) (t : time)
  (s0 : State) (r : outcome (QueryResponse.t duration)) (s' : State) :
  try_entry env q s = Some (t, s0) ->
  run env q s = (r, s') ->
  (forall e, stage_raises env q s0 e -> cache s' = cache s /\ disk s' = disk s)
  /\ (cache s' <> cache s \/ disk s' <> disk s ->
      exists s3, stages_complete env q s0 s3).
Proof.
  intros Hentry Hrun.
  destruct (run_try env q s0) as [r3 s3] eqn:Htry.
  destruct (try_entry_effect env _ _ _ _ Hentry)
    as (_ & Hc0 & Hd0 & _ & _ & _ & Hsane & _ & _).
  destruct (run_try_effect env _ _ _ _ Hsane Htry) as (_ & _ & _ & _ & Hcase).
  destruct (run_outcome env _ _ _ _ _ _ Hentry Htry)
    as (s5 & Hrun5 & Hc5 & Hd5 & _).
  rewrite Hrun5 in Hrun. injection Hrun as <- <-.
  split.
  - intros e Hstage.
    destruct (stage_raises_run_try env q s0 e Hstage) as (s3' & Htry').
    rewrite Htry in Htry'. injection Htry' as -> <-.
    destruct Hcase as (_ & Hc & Hd & _). split; congruence.
  - intros Hdiff. destruct r3 as [[]|e].
    + destruct Hcase as ((s4 & Hdone & _) & _). eauto.
    + destruct Hcase as (_ & Hc & Hd & _).
      destruct Hdiff as [H | H]; exfalso; apply H; congruence.
Qed.

(** The two runs side by side: the second is served from the entry the first
    one stored, which holds the cleaned SQL of the first run. *)
Lemma variant_hits_cache (q q' : string) (s : State) (t : time)
  (s0 s3 : State) :
  enabled (cache s) = true ->
  try_entry env q s = Some (t, s0) ->
  stages_complete env q s0 s3 ->
  variant q q' ->
  exists resp1 s1 resp2 s2 sql,
    run env q s = (Return resp1, s1)
    /\ run env q' s1 = (Return resp2, s2)
    /\ ExecutionLog.sql_query (log_entry s1) = Some sql
    /\ QueryResponse.question resp2 = q'
    /\ QueryResponse.answer resp2 = QueryResponse.answer resp1
    /\ QueryResponse.sql_query resp2 = sql
    /\ QueryResponse.sql_query resp1 = (if PyStr.nonempty sql then sql else "Failed")
    /\ QueryResponse.execution_time resp2 = zero env
    /\ QueryResponse.from_cache resp2 = true
    /\ calls s2 = calls s1
    /\ persisted s2 = persisted s1
    /\ cache s2 = cache s1 /\ disk s2 = disk s1.
Proof.
  intros Hon Hentry Hdone Hvar.
  destruct (try_entry_effect env _ _ _ _ Hentry)
    as (_ & Hc0 & Hd0 & _ & _ & _ & Hsane & _ & _).
  destruct (stages_complete_run_try q s0 s3 Hsane Hdone) as (s4 & Htry).
  destruct (run_try_effect env _ _ _ _ Hsane Htry) as (_ & _ & _ & Hsql & Hcase).
  destruct Hcase as ((s3' & _ & Hset & _) & _ & rawa & Ha).
  destruct Hdone as (s1 & _ & H1 & _).
  destruct (Hsql s1 H1) as (H41 & raws & Hraw). rewrite Hraw in H41.
  rewrite Ha, H41 in Hset. cbn [Json.of_optional] in Hset.
  destruct (run_outcome env _ _ _ _ _ _ Hentry Htry)
    as (s5 & Hrun & Hc5 & _ & _ & _ & Hlog).
  rewrite Hlog in Hrun. cbn in Hrun. rewrite Ha, H41 in Hrun. cbn in Hrun.
  assert (Hget : Cache.get (cache s5) q'
                 = Return (JObj [("answer", JStr (PyStr.strip (reply_text rawa)));
                                 ("sql_query", JStr (_clean_sql (reply_text raws)))])).
  { rewrite Hc5. eapply CacheFacts.get_after_set; [|exact Hset|exact Hvar].
    congruence. }
  destruct (run_cache_hit q' s5 _ _ Hget) as (s6 & Hhit & Hcalls & Hp & Hc6 & Hd6).
  do 2 eexists. do 2 eexists. exists (_clean_sql (reply_text raws)).
  split; [exact Hrun|]. split; [exact Hhit|].
  rewrite Hlog. cbn. rewrite H41.
  repeat split; assumption.
Qed.

(** C5.  For a database that never answers the empty statement: after a run
    of [q] with the cache switched on in which all three stages complete, a
    run of any variant [q'] of [q] (surrounding whitespace, letter case) is
    served from the cache.  It returns the answer and the [sql_query] the
    first run returned, with [execution_time] zero and [from_cache] true,
    calls no collaborator, persists no record and leaves the cache as it
    is. *)
Theorem cache_hit_on_variant (q q' : string) (s : State) (t : time)
  (s0 s3 : State) :
  rejects_empty_statement env ->
  enabled (cache s) = true ->
  try_entry env q s = Some (t, s0) ->
  stages_complete env q s0 s3 ->
  variant q q' ->
  exists resp1 s1 resp2 s2,
    run env q s = (Return resp1, s1)
    /\ run env q' s1 = (Return resp2, s2)
    /\ QueryResponse.question resp2 = q'
    /\ QueryResponse.answer resp2 = QueryResponse.answer resp1
    /\ QueryResponse.sql_query resp2 = QueryResponse.sql_query resp1
    /\ QueryResponse.execution_time resp2 = zero env
    /\ QueryResponse.from_cache resp2 = true
    /\ calls s2 = calls s1
    /\ persisted s2 = persisted s1
    /\ cache s2 = cache s1 /\ disk s2 = disk s1.
Proof.
  intros Hdb Hon Hentry Hdone Hvar.
  destruct (variant_hits_cache q q' s t s0 s3 Hon Hentry Hdone Hvar)
    as (resp1 & s1 & resp2 & s2 & sql & H1 & H2 & Hsql & Hq & Ha & Hs2 & Hs1
        & Ht & Hc & Hcalls & Hp & Hcache & Hdisk).
  assert (Hne : PyStr.nonempty sql = true).
  { destruct (try_entry_effect env _ _ _ _ Hentry)
      as (_ & _ & _ & _ & _ & _ & Hsane & _ & _).
    destruct (stages_complete_run_try q s0 s3 Hsane Hdone) as (s4 & Htry).
    destruct (run_try_effect env _ _ _ _ Hsane Htry) as (_ & _ & _ & Hgen & _).
    destruct (run_outcome env _ _ _ _ _ _ Hentry Htry)
      as (s5 & Hrun & _ & _ & _ & _ & Hlog).
    rewrite Hrun in H1. injection H1 as _ <-.
    rewrite Hlog in Hsql. cbn in Hsql.
    destruct Hdone as (sa & sb & G & X & _).
    destruct (Hgen sa G) as (H4a & _). rewrite H4a in Hsql.
    destruct (execute_sql_completes env _ _ X) as (raw_res & value & Hrun_db & Heval).
    rewrite Hsql in Hrun_db.
    destruct sql as [|c rest]; [|reflexivity].
    destruct (Hdb raw_res Hrun_db) as (e & He). congruence. }
  rewrite Hne in Hs1.
  exists resp1, s1, resp2, s2.
  repeat split; try assumption. congruence.
Qed.

(** C10.  When the generation stage completes with an empty cleaned SQL, the
    response carries ["Failed"] as its [sql_query], whatever the later stages
    do; a reply made of fence markers and whitespace is such a case. *)
Theorem empty_sql_falls_back_to_failed (q : string) (s : State) (t : time)
  (s0 s1 : State) :
  try_entry env q s = Some (t, s0) ->
  completes (generate_sql env q) s0 s1 ->
  ExecutionLog.sql_query (log_entry s1) = Some "" ->
  (exists resp s',
     run env q s = (Return resp, s')
     /\ QueryResponse.sql_query resp = "Failed"
     /\ ExecutionLog.sql_query (log_entry s') = Some "")
  /\ _clean_sql ("```sql" ++ PyStr.LF ++ "  " ++ PyStr.LF ++ "```") = "".
Proof.
  intros Hentry Hgen Hempty. split; [|reflexivity].
  destruct (run_try env q s0) as [r3 s3] eqn:Htry.
  destruct (try_entry_effect env _ _ _ _ Hentry)
    as (_ & _ & _ & _ & _ & _ & Hsane & _ & _).
  destruct (run_try_effect env _ _ _ _ Hsane Htry) as (_ & _ & _ & Hsql & Hcase).
  destruct (Hsql s1 Hgen) as (H31 & _). rewrite Hempty in H31.
  destruct (run_outcome env _ _ _ _ _ _ Hentry Htry) as (s5 & Hrun & _ & _ & _ & _ & Hlog).
  rewrite Hlog in Hrun.
  destruct r3 as [[]|e]; cbn in Hrun.
  - destruct Hcase as (_ & _ & raw & Ha). rewrite Ha, H31 in Hrun. cbn in Hrun.
    eexists. exists s5. split; [exact Hrun|]. split; [reflexivity|].
    rewrite Hlog. exact H31.
  - rewrite H31 in Hrun. cbn in Hrun.
    eexists. exists s5. split; [exact Hrun|]. split; [reflexivity|].
    rewrite Hlog. exact H31.
Qed.

End RunClaims.

(** ** The claims at concrete collaborators *)

Module Instances.
Import Demo.

Lemma question_variant : variant question "what is x?".
Proof.
  exists " ", " ", "", "", "What Is X?", "what is x?".
  repeat split; repeat (constructor; try reflexivity).
Qed.

End Instances.

Ltac by_running := unfold completes, raises; lazy; reflexivity.

(** The database rejects the statement: the response carries the error and
    the generated SQL. *)
Lemma run_contains_stage_failures_witness :
  exists resp s',
    run Demo.bad_sql Demo.question Demo.start = (Return resp, s')
    /\ QueryResponse.answer resp = "Error: You have an error in your SQL syntax"
    /\ QueryResponse.sql_query resp = "SELECT COUNT(*) FROM orders".
Proof.
  edestruct (run_contains_stage_failures Demo.bad_sql Demo.question Demo.start)
    as (resp & s' & Hrun & _ & Ha & _ & _ & _ & Hsql).
  { by_running. }
  { right. eexists. split; [by_running|]. left. by_running. }
  exists resp, s'. split; [exact Hrun|]. split; [exact Ha|].
  destruct (Hsql _ eq_refl) as (sql & Hs & Hr).
  injection Hs as <-. exact Hr.
Defined.

(** The code backend answers with fences only and the database rejects the
    empty statement: the generation stage produced the cleaned SQL [""], and
    the response carries ["Failed"], not that SQL. *)
Lemma empty_sql_is_reported_as_failed :
  exists t s0 s1 e resp s',
    try_entry Demo.only_fences Demo.question Demo.start = Some (t, s0)
    /\ completes (generate_sql Demo.only_fences Demo.question) s0 s1
    /\ ExecutionLog.sql_query (log_entry s1) = Some ""
    /\ raises (execute_sql Demo.only_fences) s1 e
    /\ run Demo.only_fences Demo.question Demo.start = (Return resp, s')
    /\ QueryResponse.sql_query resp = "Failed"
    /\ QueryResponse.sql_query resp <> "".
Proof.
  do 6 eexists.
  split; [by_running|]. split; [by_running|]. split; [by_running|].
  split; [by_running|]. split; [by_running|]. split; [by_running|].
  discriminate.
Qed.

Lemma run_persists_one_record_witness :
  exists l,
    persisted (snd (run Demo.no_answer Demo.question Demo.start)) = [l]
    /\ ExecutionLog.total_duration l = 6.
Proof.
  destruct (run Demo.no_answer Demo.question Demo.start) as [r s'] eqn:Hrun.
  edestruct (run_persists_one_record Demo.no_answer Demo.question Demo.start)
    as (Hp & _ & _ & _).
  { by_running. }
  { exact Hrun. }
  exists (log_entry s'). split; [exact Hp|].
  replace s' with (snd (run Demo.no_answer Demo.question Demo.start))
    by now rewrite Hrun.
  by_running.
Defined.

Lemma finalized_record_invariant_witness :
  exists l,
    persisted (snd (run Demo.no_schema Demo.question Demo.start)) = [l]
    /\ (succeeded l \/ failed l).
Proof.
  destruct (run Demo.no_schema Demo.question Demo.start) as [r s'] eqn:Hrun.
  edestruct (finalized_record_invariant Demo.no_schema Demo.question Demo.start)
    as (l & Hp & Hshape & _).
  { by_running. }
  { exact Hrun. }
  exists l. split; assumption.
Defined.

Lemma cache_untouched_on_failure_witness :
  cache (snd (run Demo.bad_sql Demo.question Demo.start)) = cache Demo.start
  /\ disk (snd (run Demo.bad_sql Demo.question Demo.start)) = disk Demo.start.
Proof.
  destruct (run Demo.bad_sql Demo.question Demo.start) as [r s'] eqn:Hrun.
  edestruct (cache_untouched_on_failure Demo.bad_sql Demo.question Demo.start)
    as (Hsame & _).
  { by_running. }
  { exact Hrun. }
  eapply Hsame.
  right. eexists. split; [by_running|]. left. by_running.
Defined.

Lemma cache_hit_on_variant_witness :
  exists resp1 s1 resp2 s2,
    run Demo.strict Demo.question Demo.start = (Return resp1, s1)
    /\ run Demo.strict "what is x?" s1 = (Return resp2, s2)
    /\ QueryResponse.answer resp2 = QueryResponse.answer resp1
    /\ QueryResponse.sql_query resp2 = QueryResponse.sql_query resp1
    /\ QueryResponse.from_cache resp2 = true
    /\ calls s2 = calls s1.
Proof.
  edestruct (cache_hit_on_variant Demo.strict Demo.question "what is x?" Demo.start)
    as (resp1 & s1 & resp2 & s2 & H1 & H2 & _ & Ha & Hs & _ & Hc & Hcalls & _).
  { intros raw_res H. discriminate H. }
  { by_running. }
  { by_running. }
  { do 2 eexists. split; [by_running|]. split; by_running. }
  { exact Instances.question_variant. }
  exists resp1, s1, resp2, s2. repeat split; assumption.
Defined.

Lemma empty_sql_falls_back_to_failed_witness :
  exists resp s',
    run Demo.only_fences Demo.question Demo.start = (Return resp, s')
    /\ QueryResponse.sql_query resp = "Failed".
Proof.
  edestruct (empty_sql_falls_back_to_failed Demo.only_fences Demo.question Demo.start)
    as ((resp & s' & Hrun & Hsql & _) & _).
  { by_running. }
  { by_running. }
  { by_running. }
  exists resp, s'. split; assumption.
Defined.

(** * Further properties *)

(** ** More on strings and on [_clean_sql] *)

Module StripFacts.
Import PyStr PyStrFacts.

Lemma rstrip_cons (c : ascii) (r : string) :
  rstrip (String c r) = "" \/ rstrip (String c r) = String c (rstrip r).
Proof.
  cbn [rstrip]. destruct (rstrip r); [|now right].
  destruct (isspace c); [now left | now right].
Qed.

Lemma rstrip_idempotent (s : string) : rstrip (rstrip s) = rstrip s.
Proof.
  induction s as [|c s IH]; [reflexivity|].
  cbn [rstrip]. destruct (rstrip s) as [|c' s'] eqn:E.
  - destruct (isspace c) eqn:Hc; cbn [rstrip]; [reflexivity | now rewrite Hc].
  - cbn [rstrip]. cbn [rstrip] in IH.
    destruct (rstrip s') as [|c'' s'']; now rewrite IH.
Qed.

Lemma lstrip_head (s : string) :
  lstrip s = "" \/ exists c r, lstrip s = String c r /\ isspace c = false.
Proof.
  induction s as [|c s IH]; [now left|].
  cbn [lstrip]. destruct (isspace c) eqn:Hc; [exact IH|].
  right. now exists c, s.
Qed.

Lemma strip_idempotent (s : string) : strip (strip s) = strip s.
Proof.
  unfold strip. destruct (lstrip_head s) as [-> | (c & r & -> & Hc)]; [reflexivity|].
  destruct (rstrip_cons c r) as [E | E]; rewrite E.
  - reflexivity.
  - cbn [lstrip]. rewrite Hc, <- E. apply rstrip_idempotent.
Qed.

Lemma lstrip_decompose (s : string) :
  exists l, s = l ++ lstrip s /\ all_space l = true.
Proof.
  induction s as [|c s (l & Hs & Hl)]; [now exists ""|].
  cbn [lstrip]. destruct (isspace c) eqn:Hc.
  - exists (String c l). cbn. now rewrite Hc, Hl, <- Hs.
  - now exists "".
Qed.

Lemma rstrip_decompose (s : string) :
  exists r, s = rstrip s ++ r /\ all_space r = true.
Proof.
  induction s as [|c s (r & Hs & Hr)]; [now exists ""|].
  cbn [rstrip]. destruct (rstrip s) as [|c' s'] eqn:E.
  - cbn [append] in Hs. subst s. destruct (isspace c) eqn:Hc.
    + exists (String c r). cbn. now rewrite Hc, Hr.
    + now exists r.
  - exists r. split; [|exact Hr].
    change (String c (String c' s') ++ r) with (String c (String c' s' ++ r)).
    now rewrite <- Hs.
Qed.

(** A text is its stripped part between two runs of whitespace. *)
Lemma strip_decompose (s : string) :
  exists l r, s = l ++ strip s ++ r /\ all_space l = true /\ all_space r = true.
Proof.
  destruct (lstrip_decompose s) as (l & Hs & Hl).
  destruct (rstrip_decompose (lstrip s)) as (r & Hs' & Hr).
  exists l, r. unfold strip. now rewrite <- Hs', <- Hs.
Qed.

Lemma contains_lstrip (p s : string) :
  contains p s = false -> contains p (lstrip s) = false.
Proof.
  induction s as [|c s IH]; [trivial|].
  intros H. cbn [lstrip]. destruct (isspace c); [|exact H].
  cbn [contains] in H. apply orb_false_iff in H as [_ H]. now apply IH.
Qed.

Lemma startswith_rstrip (p s : string) :
  startswith p (rstrip s) = true -> startswith p s = true.
Proof.
  revert p. induction s as [|c s IH]; intros p; [trivial|].
  destruct (rstrip_cons c s) as [E | E]; rewrite E.
  - destruct p; [reflexivity | discriminate].
  - destruct p as [|a p]; [reflexivity|]. cbn [startswith].
    intros H. apply andb_true_iff in H as [Ha Hp].
    now rewrite Ha, (IH p Hp).
Qed.

Lemma contains_rstrip (p s : string) :
  contains p s = false -> contains p (rstrip s) = false.
Proof.
  induction s as [|c s IH]; [trivial|].
  intros H. cbn [contains] in H. apply orb_false_iff in H as [Hhead Htail].
  destruct (rstrip_cons c s) as [E | E].
  - rewrite E. cbn [contains]. destruct p; [discriminate Hhead | reflexivity].
  - destruct (contains p (rstrip (String c s))) eqn:Hc; [|reflexivity].
    rewrite E in Hc. cbn [contains] in Hc. apply orb_true_iff in Hc as [Hc | Hc].
    + rewrite <- E in Hc. apply startswith_rstrip in Hc. congruence.
    + rewrite (IH Htail) in Hc. discriminate.
Qed.

Lemma contains_strip (p s : string) :
  contains p s = false -> contains p (strip s) = false.
Proof. intros H. now apply contains_rstrip, contains_lstrip. Qed.

Lemma lower_char_idempotent (c : ascii) : lower_char (lower_char c) = lower_char c.
Proof. each_code_point c. Qed.

Lemma same_letters_lower_r (s : string) : same_letters s (lower s).
Proof.
  induction s as [|c s IH]; constructor; [|exact IH].
  unfold same_letter. now rewrite lower_char_idempotent.
Qed.

Lemma same_letters_of_lower (s t : string) : lower s = lower t -> same_letters s t.
Proof.
  revert t. induction s as [|a s IH]; intros [|b t] H; try discriminate.
  - constructor.
  - injection H as Hab Hst. constructor; [exact Hab | now apply IH].
Qed.

Lemma variant_of_normalize (q q' : string) :
  Cache.normalize q = Cache.normalize q' -> variant q q'.
Proof.
  unfold Cache.normalize. intros H.
  destruct (strip_decompose q) as (l & r & Hq & Hl & Hr).
  destruct (strip_decompose q') as (l' & r' & Hq' & Hl' & Hr').
  exists l, r, l', r', (strip q), (strip q').
  repeat split; try assumption.
  now apply same_letters_of_lower.
Qed.

End StripFacts.

Module FenceFacts.
Import PyStr PyStrFacts CleanSqlFacts StripFacts.

Lemma startswith_fence_cons (c : ascii) (s : string) :
  startswith fence (String c s) = Ascii.eqb "`" c && startswith "``" s.
Proof. reflexivity. Qed.

Lemma not_backtick_kept (c : ascii) (rest : string) :
  Ascii.eqb "`" c = false ->
  sub_fences 0 (String c rest) = String c (sub_fences 0 rest).
Proof.
  intros H. apply sub_fences_keep. now rewrite startswith_fence_cons, H.
Qed.

(** The substitution puts no backtick at the head of a text that had none. *)
Lemma sub_fences_head (q : string) :
  startswith "`" q = false -> startswith "`" (sub_fences 0 q) = false.
Proof.
  destruct q as [|c rest]; [trivial|].
  cbn [startswith]. rewrite andb_true_r. intros H.
  rewrite not_backtick_kept by assumption. cbn [startswith]. now rewrite H.
Qed.

Lemma startswith_two_backticks (s : string) :
  startswith "``" s = true -> startswith "`" s = true.
Proof.
  destruct s as [|c s]; [discriminate|]. cbn [startswith].
  intros H. apply andb_true_iff in H as [-> _]. reflexivity.
Qed.

(** A backtick that is kept is not followed by two backticks in the output. *)
Lemma sub_fences_after_kept (rest : string) :
  startswith "``" rest = false -> startswith "``" (sub_fences 0 rest) = false.
Proof.
  destruct rest as [|c r2]; [trivial|].
  intros H. destruct (Ascii.eqb "`" c) eqn:Hc.
  - cbn [startswith] in H. rewrite Hc in H. cbn [andb] in H.
    assert (Hr2 : startswith "`" r2 = false) by exact H.
    assert (Hkeep : startswith fence (String c r2) = false).
    { rewrite startswith_fence_cons, Hc. cbn [andb].
      destruct (startswith "``" r2) eqn:E; [|reflexivity].
      apply startswith_two_backticks in E. congruence. }
    rewrite sub_fences_keep by assumption.
    cbn [startswith]. rewrite Hc. cbn [andb].
    exact (sub_fences_head r2 Hr2).
  - rewrite not_backtick_kept by assumption. cbn [startswith]. now rewrite Hc.
Qed.

(** What the substitution leaves holds no fence marker, wherever the scan is. *)
Lemma sub_fences_no_fence (q : string) (skip : nat) :
  contains fence (sub_fences skip q) = false.
Proof.
  revert skip. induction q as [|c rest IH]; intros skip; [reflexivity|].
  destruct skip as [|k]; [|exact (IH k)].
  rewrite sub_fences_scan.
  destruct (startswith_ci fence_sql (String c rest)); [exact (IH 5)|].
  rewrite startswith_ci_fence.
  destruct (startswith fence (String c rest)) eqn:Hf; [exact (IH 2)|].
  cbn [contains]. rewrite (IH 0), orb_false_r.
  rewrite startswith_fence_cons in *.
  destruct (Ascii.eqb "`" c); [|reflexivity].
  cbn [andb] in *. now apply sub_fences_after_kept.
Qed.

Lemma clean_sql_no_fence (query : string) :
  contains fence (_clean_sql query) = false.
Proof. unfold _clean_sql. apply contains_strip, sub_fences_no_fence. Qed.

End FenceFacts.

(** X1.  Whatever the backend replied, the cleaned SQL holds no fence marker:
    deleting the matches never brings three backticks together. *)
Theorem clean_sql_has_no_fence (query : string) :
  PyStr.contains fence (_clean_sql query) = false.
Proof. apply FenceFacts.clean_sql_no_fence. Qed.

(** X2.  Cleaning is idempotent, and the cleaned SQL has no whitespace at
    either end. *)
Theorem clean_sql_idempotent (query : string) :
  _clean_sql (_clean_sql query) = _clean_sql query
  /\ PyStr.strip (_clean_sql query) = _clean_sql query.
Proof.
  assert (Hstrip : PyStr.strip (_clean_sql query) = _clean_sql query).
  { unfold _clean_sql. apply StripFacts.strip_idempotent. }
  split; [|exact Hstrip].
  unfold _clean_sql at 1.
  rewrite CleanSqlFacts.sub_fences_fence_free by apply FenceFacts.clean_sql_no_fence.
  exact Hstrip.
Qed.

(** X3.  Two questions share a cache key exactly when they differ only in
    surrounding whitespace and in letter case. *)
Theorem normalize_eq_iff_variant (q q' : string) :
  Cache.normalize q = Cache.normalize q' <-> variant q q'.
Proof.
  split; [apply StripFacts.variant_of_normalize | apply PyStrFacts.normalize_variant].
Qed.

Lemma normalize_eq_iff_variant_witness :
  Cache.normalize " What Is X? " = Cache.normalize "what is x?"
  /\ ~ variant "orders" "order".
Proof.
  split.
  - apply (proj2 (normalize_eq_iff_variant " What Is X? " "what is x?")).
    exact Instances.question_variant.
  - intros H. apply (proj2 (normalize_eq_iff_variant "orders" "order")) in H.
    discriminate H.
Defined.

(** ** More on the cache store *)

Module StoreFacts.

Lemma lookup_store_other (key key' : string) (value : json)
  (fields : list (string * json)) :
  key <> key' ->
  Json.lookup key' (Json.store key value fields) = Json.lookup key' fields.
Proof.
  intros Hne. induction fields as [|[k v] fields IH]; cbn [Json.store Json.lookup].
  - destruct (String.eqb key key') eqn:E; [|reflexivity].
    apply String.eqb_eq in E. contradiction.
  - destruct (String.eqb k key) eqn:E; cbn [Json.lookup].
    + apply String.eqb_eq in E. subst k.
      destruct (String.eqb key key') eqn:E'; [|reflexivity].
      apply String.eqb_eq in E'. contradiction.
    + now rewrite IH.
Qed.

(** The keys after [d[key] = value]: as before if [key] was there, with
    [key] last otherwise. *)
Lemma store_keys (key : string) (value : json) (fields : list (string * json)) :
  map fst (Json.store key value fields)
  = match Json.lookup key fields with
    | Some _ => map fst fields
    | None => (map fst fields ++ [key])%list
    end.
Proof.
  induction fields as [|[k v] fields IH]; cbn [Json.store Json.lookup]; [reflexivity|].
  destruct (String.eqb k key) eqn:E; [reflexivity|].
  cbn [map fst]. rewrite IH. now destruct (Json.lookup key fields).
Qed.

Lemma lookup_none_not_in (key : string) (fields : list (string * json)) :
  Json.lookup key fields = None -> ~ In key (map fst fields).
Proof.
  induction fields as [|[k v] fields IH]; cbn [Json.lookup map fst In]; [tauto|].
  destruct (String.eqb k key) eqn:E; [discriminate|].
  intros H [Hk | Hin]; [|now apply IH].
  subst k. rewrite String.eqb_refl in E. discriminate.
Qed.

Lemma store_keys_nodup (key : string) (value : json) (fields : list (string * json)) :
  NoDup (map fst fields) -> NoDup (map fst (Json.store key value fields)).
Proof.
  intros H. rewrite store_keys. destruct (Json.lookup key fields) eqn:E; [exact H|].
  apply NoDup_app; [exact H | repeat constructor; intros [] | ].
  intros k Hin [<- | []]. now apply (lookup_none_not_in key fields).
Qed.

(** A [set] that returns on a store that is switched on: the store held a
    dict, and holds the updated dict now. *)
Lemma set_enabled (self self' : CacheManager) (d d' : Disk) (q : string) (data : json) :
  enabled self = true ->
  Cache.set self d q data = Return (self', d') ->
  exists fields,
    _cache self = JObj fields
    /\ self' = Cache.with_cache (JObj (Json.store (Cache.normalize q) data fields)) self
    /\ d' = Cache._save_cache self' d.
Proof.
  unfold Cache.set. intros Hon H. rewrite Hon in H. cbn [negb] in H.
  destruct (_cache self) as [| | | | | |fields]; try discriminate.
  injection H as <- <-. now exists fields.
Qed.

End StoreFacts.

(** X4.  After [set(q, data)] on a store that is switched on, [get] returns
    [data] for every variant of [q], and for every other question what it
    returned before. *)
Theorem cache_set_then_get (self self' : CacheManager) (d d' : Disk)
  (q : string) (data : json) :
  enabled self = true ->
  Cache.set self d q data = Return (self', d') ->
  (forall q', variant q q' -> Cache.get self' q' = Return data)
  /\ (forall q', ~ variant q q' -> Cache.get self' q' = Cache.get self q').
Proof.
  intros Hon Hset. split.
  - intros q' Hv. eapply CacheFacts.get_after_set; eassumption.
  - intros q' Hv.
    destruct (StoreFacts.set_enabled _ _ _ _ _ _ Hon Hset) as (fields & Hc & -> & _).
    unfold Cache.get. cbn [Cache.with_cache enabled _cache]. rewrite Hon, Hc.
    cbn [negb]. rewrite StoreFacts.lookup_store_other; [reflexivity|].
    intros E. apply Hv. now apply StripFacts.variant_of_normalize.
Qed.

Lemma cache_set_then_get_witness :
  let entry := JObj [("answer", JStr "42"); ("sql_query", JStr "SELECT 1")] in
  exists self' d',
    Cache.set (Demo.empty_cache true) Demo.empty_disk " What Is X? " entry
    = Return (self', d')
    /\ Cache.get self' "what is x?" = Return entry
    /\ Cache.get self' "what is y?" = Return JNull.
Proof.
  cbv zeta. do 2 eexists. split; [reflexivity|].
  epose proof (cache_set_then_get (Demo.empty_cache true) _ Demo.empty_disk _
                 " What Is X? "
                 (JObj [("answer", JStr "42"); ("sql_query", JStr "SELECT 1")])
                 eq_refl eq_refl) as (Hhit & Hmiss).
  split.
  - apply Hhit. exact Instances.question_variant.
  - rewrite Hmiss; [reflexivity|].
    intros H. apply PyStrFacts.normalize_variant in H. discriminate H.
Defined.

(** X5.  A second [set] under a variant of the same question replaces the
    entry in place: the last value written is the one found, the keys and
    their order are those left by the first [set], and no key occurs twice
    if none did. *)
Theorem cache_set_overwrites (self s1 s2 : CacheManager) (d d1 d2 : Disk)
  (q q' : string) (first second : json) :
  enabled self = true ->
  Cache.set self d q first = Return (s1, d1) ->
  Cache.set s1 d1 q' second = Return (s2, d2) ->
  variant q q' ->
  Cache.get s2 q = Return second
  /\ exists f f1 f2,
       _cache self = JObj f /\ _cache s1 = JObj f1 /\ _cache s2 = JObj f2
       /\ map fst f2 = map fst f1
       /\ (NoDup (map fst f) -> NoDup (map fst f2)).
Proof.
  intros Hon H1 H2 Hv.
  destruct (StoreFacts.set_enabled _ _ _ _ _ _ Hon H1) as (f & Hc & E1 & _).
  assert (Hon1 : enabled s1 = true) by (subst s1; exact Hon).
  destruct (StoreFacts.set_enabled _ _ _ _ _ _ Hon1 H2) as (f1 & Hc1 & E2 & _).
  split.
  - eapply CacheFacts.get_after_set; [exact Hon1 | exact H2 |].
    apply StripFacts.variant_of_normalize. symmetry.
    now apply PyStrFacts.normalize_variant.
  - exists f, f1, (Json.store (Cache.normalize q') second f1).
    split; [exact Hc|]. split; [exact Hc1|]. split; [now subst s2|].
    assert (Hf1 : f1 = Json.store (Cache.normalize q) first f).
    { subst s1. cbn [Cache.with_cache _cache] in Hc1. now injection Hc1. }
    rewrite <- (PyStrFacts.normalize_variant _ _ Hv).
    split.
    + rewrite StoreFacts.store_keys. subst f1.
      now rewrite CacheFacts.lookup_store.
    + intros Hnd. apply StoreFacts.store_keys_nodup. subst f1.
      now apply StoreFacts.store_keys_nodup.
Qed.

Lemma cache_set_overwrites_witness :
  exists s1 d1 s2 d2,
    Cache.set (Demo.empty_cache true) Demo.empty_disk "Q" (JStr "old") = Return (s1, d1)
    /\ Cache.set s1 d1 " q " (JStr "new") = Return (s2, d2)
    /\ Cache.get s2 "Q" = Return (JStr "new")
    /\ _cache s2 = JObj [("q", JStr "new")].
Proof.
  do 4 eexists. split; [reflexivity|]. split; [reflexivity|].
  assert (Hv : variant "Q" " q ").
  { exists "", "", " ", " ", "Q", "q".
    repeat split; repeat (constructor; try reflexivity). }
  epose proof (cache_set_overwrites (Demo.empty_cache true) _ _ Demo.empty_disk _ _
                 "Q" " q " (JStr "old") (JStr "new") eq_refl eq_refl eq_refl Hv)
    as (Hget & _).
  split; [exact Hget | reflexivity].
Defined.

(** X6.  Write-through: after a [set] on a store that is switched on, over a
    file that can be written, the file holds the whole map, and a store
    constructed over it afterwards is the store in memory. *)
Theorem cache_set_writes_through (self self' : CacheManager) (d d' : Disk)
  (q : string) (data : json) :
  enabled self = true ->
  writable d = true ->
  Cache.set self d q data = Return (self', d') ->
  cache_file d' = Present (Return (_cache self'))
  /\ Cache.__init__ (file_path self) true d' = Return self'.
Proof.
  intros Hon Hw Hset.
  destruct (StoreFacts.set_enabled _ _ _ _ _ _ Hon Hset) as (fields & Hc & -> & ->).
  unfold Cache._save_cache, Cache.__init__, Cache._load_cache.
  cbn [Cache.with_cache Cache.blank enabled _cache file_path negb].
  rewrite Hon, Hw. cbn [negb cache_file]. split; [reflexivity|].
  unfold Cache.with_cache. cbn [file_path enabled]. now rewrite Hon.
Qed.

Lemma cache_set_writes_through_witness :
  exists self' d',
    Cache.set (Demo.empty_cache true) Demo.empty_disk "Q" (JStr "a") = Return (self', d')
    /\ Cache.__init__ Demo.cache_path true d' = Return self'.
Proof.
  do 2 eexists. split; [reflexivity|].
  apply (cache_set_writes_through (Demo.empty_cache true) _ Demo.empty_disk _ "Q" (JStr "a"));
    reflexivity.
Defined.

(** X7.  When the file cannot be written, [set] still returns: the entry is
    in the map in memory and the file is as it was. *)
Theorem cache_set_survives_write_failure (self self' : CacheManager) (d d' : Disk)
  (q : string) (data : json) :
  enabled self = true ->
  writable d = false ->
  Cache.set self d q data = Return (self', d') ->
  d' = d /\ Cache.get self' q = Return data.
Proof.
  intros Hon Hw Hset.
  assert (Hget : Cache.get self' q = Return data).
  { eapply CacheFacts.get_after_set; [exact Hon | exact Hset |].
    now apply StripFacts.variant_of_normalize. }
  destruct (StoreFacts.set_enabled _ _ _ _ _ _ Hon Hset) as (fields & Hc & -> & ->).
  unfold Cache._save_cache. cbn [Cache.with_cache enabled]. rewrite Hon, Hw.
  cbn [negb]. repeat split. exact Hget.
Qed.

Lemma cache_set_survives_write_failure_witness :
  let read_only := {| cache_file := Missing; writable := false |} in
  exists self',
    Cache.set (Demo.empty_cache true) read_only "Q" (JStr "a") = Return (self', read_only)
    /\ Cache.get self' "Q" = Return (JStr "a")
    /\ Cache.__init__ Demo.cache_path true read_only = Return (Demo.empty_cache true).
Proof.
  cbv zeta. eexists. split; [reflexivity|].
  epose proof (cache_set_survives_write_failure (Demo.empty_cache true) _
                 {| cache_file := Missing; writable := false |} _ "Q" (JStr "a")
                 eq_refl eq_refl eq_refl) as (_ & Hget).
  split; [exact Hget | reflexivity].
Defined.



(** ** More on the run *)

Section Keeping.
Context {duration : Type}.
Variable R : @State duration -> @State duration -> Prop.
Hypothesis R_refl : forall s, R s s.
Hypothesis R_trans : forall s1 s2 s3, R s1 s2 -> R s2 s3 -> R s1 s3.

Lemma keeps_ret {A : Type} (a : A) : keeps R (ret a).
Proof. intros s r s' H. injection H as _ <-. apply R_refl. Qed.

Lemma keeps_raise {A : Type} (e : exn) : keeps R (@raise duration A e).
Proof. intros s r s' H. injection H as _ <-. apply R_refl. Qed.

Lemma keeps_lift {A : Type} (o : outcome A) : keeps R (lift o).
Proof. intros s r s' H. injection H as _ <-. apply R_refl. Qed.

Lemma keeps_bind {A B : Type} (m : M A) (k : A -> M B) :
  keeps R m -> (forall a, keeps R (k a)) -> keeps R (bind m k).
Proof.
  intros Hm Hk s r s'. unfold bind.
  destruct (m s) as [[a|e] s1] eqn:E; intros H.
  - eapply R_trans; [exact (Hm _ _ _ E) | exact (Hk a _ _ _ H)].
  - injection H as _ <-. exact (Hm _ _ _ E).
Qed.

Lemma keeps_try_except (body : M unit) (handler : exn -> M unit) :
  keeps R body -> (forall e, keeps R (handler e)) ->
  keeps R (try_except body handler).
Proof.
  intros Hb Hh s r s'. unfold try_except.
  destruct (body s) as [[a|e] s1] eqn:E; intros H.
  - injection H as _ <-. exact (Hb _ _ _ E).
  - eapply R_trans; [exact (Hb _ _ _ E) | exact (Hh e _ _ _ H)].
Qed.

Lemma keeps_try_except_finally (body : M unit) (handler : exn -> M unit)
  (final : M unit) :
  keeps R body -> (forall e, keeps R (handler e)) -> keeps R final ->
  keeps R (try_except_finally body handler final).
Proof.
  intros Hb Hh Hf s r s'. unfold try_except_finally.
  destruct (try_except body handler s) as [pending s1] eqn:E.
  pose proof (keeps_try_except body handler Hb Hh _ _ _ E) as H1.
  destruct (final s1) as [[a|e] s2] eqn:F; intros H; injection H as _ <-;
    (eapply R_trans; [exact H1 | exact (Hf _ _ _ F)]).
Qed.

End Keeping.

Section LogDiscipline.
Context {time duration : Type}.
Variable env : @Env time duration.

Local Abbreviation State := (@State duration).

Lemma messages_app (l l' : list (log_line duration)) :
  messages (l ++ l') = (messages l ++ messages l')%list.
Proof.
  induction l as [|[lv m | label data] l IH]; cbn [messages app];
    [reflexivity | now rewrite IH | exact IH].
Qed.

Lemma records_messages (l : list (log_line duration)) :
  Logger.records (messages l) = [].
Proof. induction l as [|[lv m | label data] l IH]; cbn; assumption || reflexivity. Qed.

Lemma log_grows_refl (s : State) : log_grows s s.
Proof. exists []. split; cbn; now rewrite app_nil_r. Qed.

Lemma log_grows_trans (s1 s2 s3 : State) :
  log_grows s1 s2 -> log_grows s2 s3 -> log_grows s1 s3.
Proof.
  intros (x & Hf & Hc) (y & Hf' & Hc'). exists (x ++ y)%list. split.
  - now rewrite Hf', Hf, app_assoc.
  - now rewrite Hc', Hc, messages_app, app_assoc.
Qed.

Lemma log_grows_same (s s' : State) : app_logger s' = app_logger s -> log_grows s s'.
Proof. intros H. exists []. rewrite H. split; cbn; now rewrite app_nil_r. Qed.

Local Abbreviation quiet m := (keeps (@log_grows duration) m).

Lemma quiet_now : quiet (now env).
Proof. intros s r s' H. injection H as _ <-. now apply log_grows_same. Qed.

Lemma quiet_now_isoformat : quiet (now_isoformat env).
Proof. intros s r s' H. injection H as _ <-. now apply log_grows_same. Qed.

Lemma quiet_invoke {A : Type} (c : call) (o : outcome A) : quiet (invoke c o).
Proof. intros s r s' H. injection H as _ <-. now apply log_grows_same. Qed.

Lemma quiet_assign (f : ExecutionLog.t duration -> ExecutionLog.t duration) :
  quiet (assign f).
Proof. intros s r s' H. injection H as _ <-. now apply log_grows_same. Qed.

Lemma quiet_the_log_entry : quiet (@the_log_entry duration).
Proof. intros s r s' H. injection H as _ <-. now apply log_grows_same. Qed.

Lemma quiet_cache_get (q : string) : quiet (@cache_get duration q).
Proof. intros s r s' H. injection H as _ <-. now apply log_grows_same. Qed.

Lemma quiet_cache_set (q : string) (data : json) : quiet (@cache_set duration q data).
Proof.
  intros s r s'. unfold cache_set.
  destruct (Cache.set (cache s) (disk s) q data) as [[c d]|e];
    intros H; injection H as _ <-; now apply log_grows_same.
Qed.

Lemma quiet_log_info (m : string) : quiet (@log_info duration m).
Proof.
  intros s r s' H. injection H as _ <-. exists [Message INFO m]. now split.
Qed.

Lemma quiet_log_error (m : string) : quiet (@log_error duration m).
Proof.
  intros s r s' H. injection H as _ <-. exists [Message ERROR m]. now split.
Qed.

Lemma quiet_log_struct (data : ExecutionLog.t duration) : quiet (log_struct data).
Proof.
  intros s r s' H. injection H as _ <-. exists [Struct "EXECUTION_RECORD" data].
  split; cbn; [reflexivity | now rewrite app_nil_r].
Qed.

Ltac quiet_steps :=
  repeat first
    [ apply (keeps_bind _ log_grows_trans); [|intros ?]
    | apply (keeps_try_except _ log_grows_trans); [|intros ?]
    | apply (keeps_try_except_finally _ log_grows_trans); [|intros ?|]
    | apply (keeps_ret _ log_grows_refl)
    | apply (keeps_raise _ log_grows_refl)
    | apply (keeps_lift _ log_grows_refl)
    | apply quiet_now | apply quiet_now_isoformat | apply quiet_invoke
    | apply quiet_assign | apply quiet_the_log_entry | apply quiet_cache_get
    | apply quiet_cache_set | apply quiet_log_info | apply quiet_log_error
    | apply quiet_log_struct ].

Lemma quiet_run (q : string) : quiet (run env q).
Proof.
  unfold run, cache_check, serve_cached, run_uncached, respond, run_try,
    run_except, run_finally, save_to_cache.
  apply (keeps_bind _ log_grows_trans); [quiet_steps|].
  intros [start_total cached_data]. destruct (Json.truth cached_data).
  - quiet_steps.
  - quiet_steps.
Qed.

(** X13.  Whatever a run does, the log file only grows, and the console
    receives exactly the progress lines the file receives, in the same order,
    and never a structured record. *)
Theorem run_log_discipline (q : string) (s : State)
  (r : outcome (QueryResponse.t duration)) (s' : State) :
  run env q s = (r, s') ->
  exists extra,
    file_handler (app_logger s') = (file_handler (app_logger s) ++ extra)%list
    /\ console_handler (app_logger s')
       = (console_handler (app_logger s) ++ messages extra)%list
    /\ Logger.records (console_handler (app_logger s'))
       = Logger.records (console_handler (app_logger s)).
Proof.
  intros H. destruct (quiet_run q _ _ _ H) as (extra & Hf & Hc).
  exists extra. split; [exact Hf|]. split; [exact Hc|].
  rewrite Hc, records_app, records_messages. apply app_nil_r.
Qed.

End LogDiscipline.

Lemma run_log_discipline_witness :
  let s' := snd (run Demo.bad_sql Demo.question Demo.start) in
  file_handler (app_logger s')
  = [Message INFO "Processing:  What Is X? ";
     Message INFO "SQL Generated in 1s";
     Message ERROR "Pipeline Error: You have an error in your SQL syntax";
     Struct "EXECUTION_RECORD" (log_entry s')]
  /\ console_handler (app_logger s')
     = [Message INFO "Processing:  What Is X? ";
        Message INFO "SQL Generated in 1s";
        Message ERROR "Pipeline Error: You have an error in your SQL syntax"].
Proof.
  cbv zeta.
  destruct (run Demo.bad_sql Demo.question Demo.start) as [r s'] eqn:Hrun.
  destruct (run_log_discipline Demo.bad_sql Demo.question Demo.start r s' Hrun)
    as (extra & Hf & Hc & _).
  replace s' with (snd (run Demo.bad_sql Demo.question Demo.start))
    by now rewrite Hrun.
  split; lazy; reflexivity.
Defined.

Section RunMore.
Context {time duration : Type}.
Variable env : @Env time duration.

Local Abbreviation State := (@State duration).

Ltac step_monad :=
  unfold bind, ret, raise, lift, now, now_isoformat, invoke, assign,
    the_log_entry, log_info, log_error, log_struct, cache_get, try_except,
    with_log_entry, with_app_logger, tick in *.

(** X9.  The cache lookup is outside the [try] statement: on a store that is
    switched on and does not hold a dict, [run] raises [AttributeError] for
    every question, before any stage runs and without logging anything. *)
Theorem run_raises_on_non_dict_cache (q : string) (s : State) :
  enabled (cache s) = true ->
  (forall fields, _cache (cache s) <> JObj fields) ->
  exists s',
    run env q s = (Raise (Cache.attribute_error (_cache (cache s)) "get"), s')
    /\ calls s' = calls s /\ app_logger s' = app_logger s
    /\ cache s' = cache s /\ disk s' = disk s.
Proof.
  intros Hon Hnot. unfold run, cache_check. step_monad. cbn.
  unfold Cache.get. rewrite Hon. cbn [negb].
  destruct (_cache (cache s)) as [| | | | | |fields];
    try (eexists; split; [reflexivity | repeat split]).
  now destruct (Hnot fields).
Qed.

(** X10.  A cache entry that is truthy but lacks a key, or is not a dict,
    makes [run] raise the lookup error to the caller: no stage runs and no
    record is persisted. *)
Theorem run_raises_on_malformed_entry (q : string) (s : State) (v : json) (e : exn) :
  Cache.get (cache s) q = Return v ->
  Json.truth v = true ->
  getitem v "answer" = Raise e
  \/ (exists a, getitem v "answer" = Return a /\ getitem v "sql_query" = Raise e) ->
  exists s',
    run env q s = (Raise e, s')
    /\ calls s' = calls s /\ persisted s' = persisted s
    /\ cache s' = cache s /\ disk s' = disk s.
Proof.
  intros Hget Hv Hbad. unfold run, cache_check, serve_cached, persisted.
  step_monad. cbn. rewrite Hget. cbn. rewrite Hv. cbn.
  destruct Hbad as [Ha | (a & Ha & Hs)]; rewrite Ha; [|rewrite Hs];
    (eexists; split; [reflexivity|]); cbn; rewrite records_message; repeat split.
Qed.

(** *** The calls of a run *)

Lemma or_else_some_empty (p : string) :
  (if PyStr.nonempty p then p else "") = p.
Proof. now destruct p. Qed.

Lemma run_try_calls (q : string) (s0 : State) (r3 : outcome unit) (s3 : State) :
  run_try env q s0 = (r3, s3) ->
  exists n raw_res,
    1 <= n <= 5
    /\ calls s3 = (calls s0 ++ firstn n (planned_calls (log_entry s3) raw_res))%list.
Proof.
  unfold run_try, generate_sql, execute_sql, generate_answer, save_to_cache,
    cache_set, planned_calls.
  step_monad. cbn.
  destruct (get_table_info env) as [schema|e].
  2:{ intros H; injection H as <- <-. exists 1, "". split; [lia|reflexivity]. }
  destruct (sql_llm env _) as [raw_sql|e].
  2:{ intros H; injection H as <- <-. exists 2, "". split; [lia|]. cbn.
      now rewrite or_else_some_empty, <- app_assoc. }
  cbn. destruct (db_run env _) as [raw_res|e].
  2:{ intros H; injection H as <- <-. exists 3, "". split; [lia|]. cbn.
      now rewrite or_else_some_empty, <- !app_assoc. }
  cbn. destruct (eval env raw_res) as [value|e].
  2:{ intros H; injection H as <- <-. exists 4, raw_res. split; [lia|]. cbn.
      now rewrite or_else_some_empty, <- !app_assoc. }
  cbn. destruct (nlp_llm env _) as [ans_res|e].
  2:{ intros H; injection H as <- <-. exists 5, raw_res. split; [lia|]. cbn.
      now rewrite !or_else_some_empty, <- !app_assoc. }
  cbn. destruct (Cache.set _ _ _ _) as [[c d]|e];
    intros H; injection H as <- <-; exists 5, raw_res; (split; [lia|]); cbn;
    now rewrite !or_else_some_empty, <- !app_assoc.
Qed.

Lemma run_without_try_calls (q : string) (s : State)
  (r : outcome (QueryResponse.t duration)) (s' : State) :
  try_entry env q s = None ->
  run env q s = (r, s') ->
  calls s' = calls s.
Proof.
  unfold try_entry, run, cache_check, serve_cached. step_monad. cbn.
  destruct (Cache.get (cache s) q) as [v|e].
  - cbn. destruct (Json.truth v); [|discriminate]. intros _. cbn.
    destruct (getitem v "answer") as [a|e]; [|intros H; now injection H as _ <-].
    destruct (getitem v "sql_query") as [b|e]; intros H; now injection H as _ <-.
  - intros _ H. now injection H as _ <-.
Qed.

(** X11.  The calls a run makes are the first [n] of: schema, code model,
    database, [eval], conversational model, in that order and each at most
    once, with the prompts and the SQL that the record of the run shows.  No
    call is made exactly when the run does not reach its [try] statement
    (a cache hit, or a failing lookup). *)
Theorem run_call_sequence (q : string) (s : State)
  (r : outcome (QueryResponse.t duration)) (s' : State) :
  run env q s = (r, s') ->
  exists n raw_res,
    n <= 5
    /\ calls s' = (calls s ++ firstn n (planned_calls (log_entry s') raw_res))%list
    /\ (n = 0 <-> try_entry env q s = None).
Proof.
  intros Hrun. destruct (try_entry env q s) as [[t s0]|] eqn:Hentry.
  - destruct (run_try env q s0) as [r3 s3] eqn:Htry.
    destruct (try_entry_effect env _ _ _ _ Hentry)
      as (_ & _ & _ & Hcalls0 & _).
    destruct (run_try_calls _ _ _ _ Htry) as (n & raw_res & Hn & Hcalls).
    destruct (run_outcome env _ _ _ _ _ _ Hentry Htry)
      as (s5 & Hrun5 & _ & _ & Hcalls5 & _ & Hlog).
    rewrite Hrun5 in Hrun. injection Hrun as _ <-.
    exists n, raw_res. split; [lia|]. split.
    + rewrite Hcalls5, Hcalls, Hcalls0, Hlog. f_equal. f_equal.
      unfold planned_calls. now destruct r3.
    + split; [lia | discriminate].
  - exists 0, "". split; [lia|]. split; [|tauto].
    cbn. rewrite app_nil_r. eapply run_without_try_calls; eassumption.
Qed.

(** *** The fields a failing stage leaves *)

Lemma generate_sql_fields (q : string) (s : State) (r : outcome unit) (s' : State) :
  generate_sql env q s = (r, s') ->
  ExecutionLog.result (log_entry s') = ExecutionLog.result (log_entry s)
  /\ ExecutionLog.nlp_prompt (log_entry s') = ExecutionLog.nlp_prompt (log_entry s)
  /\ ExecutionLog.query_execution_time (log_entry s')
     = ExecutionLog.query_execution_time (log_entry s)
  /\ ExecutionLog.answer_generation_time (log_entry s')
     = ExecutionLog.answer_generation_time (log_entry s)
  /\ (forall e, r = Raise e ->
        ExecutionLog.sql_generation_time (log_entry s')
        = ExecutionLog.sql_generation_time (log_entry s)).
Proof.
  unfold generate_sql. step_monad. cbn.
  destruct (get_table_info env) as [schema|e0].
  - destruct (sql_llm env _) as [raw|e0]; intros H; injection H as <- <-; cbn;
      repeat split; discriminate.
  - intros H; injection H as <- <-; cbn. repeat split.
Qed.

Lemma execute_sql_fields (s : State) (r : outcome unit) (s' : State) :
  execute_sql env s = (r, s') ->
  ExecutionLog.nlp_prompt (log_entry s') = ExecutionLog.nlp_prompt (log_entry s)
  /\ ExecutionLog.sql_generation_time (log_entry s')
     = ExecutionLog.sql_generation_time (log_entry s)
  /\ ExecutionLog.answer_generation_time (log_entry s')
     = ExecutionLog.answer_generation_time (log_entry s)
  /\ (forall e, r = Raise e ->
        ExecutionLog.query_execution_time (log_entry s')
        = ExecutionLog.query_execution_time (log_entry s)
        /\ ExecutionLog.result (log_entry s') = Some "Error executing query").
Proof.
  unfold execute_sql. step_monad. cbn.
  destruct (db_run env _) as [raw_res|e0].
  - destruct (eval env raw_res) as [value|e0]; intros H; injection H as <- <-; cbn;
      repeat split; discriminate.
  - intros H; injection H as <- <-; cbn. repeat split.
Qed.

Lemma generate_answer_fields (q : string) (s : State) (r : outcome unit) (s' : State) :
  generate_answer env q s = (r, s') ->
  ExecutionLog.result (log_entry s') = ExecutionLog.result (log_entry s)
  /\ ExecutionLog.sql_generation_time (log_entry s')
     = ExecutionLog.sql_generation_time (log_entry s)
  /\ ExecutionLog.query_execution_time (log_entry s')
     = ExecutionLog.query_execution_time (log_entry s)
  /\ (exists p, ExecutionLog.nlp_prompt (log_entry s') = Some p)
  /\ (forall e, r = Raise e ->
        ExecutionLog.answer_generation_time (log_entry s')
        = ExecutionLog.answer_generation_time (log_entry s)).
Proof.
  unfold generate_answer. step_monad. cbn.
  destruct (nlp_llm env _) as [raw|e0]; intros H; injection H as <- <-; cbn;
    repeat split; eauto; discriminate.
Qed.

(** X12.  The record of a failed run: the stage that raised and the stages
    after it leave their durations at zero, although the clock was read;
    after a failed execution the result is the placeholder
    ["Error executing query"], and the prompt of a stage is recorded only if
    the stage started. *)
Theorem failed_stage_record (q : string) (s : State) (t : time) (s0 : State)
  (r : outcome (QueryResponse.t duration)) (s' : State) :
  try_entry env q s = Some (t, s0) ->
  run env q s = (r, s') ->
  let l := log_entry s' in
  (forall e, raises (generate_sql env q) s0 e ->
     ExecutionLog.sql_generation_time l = zero env
     /\ ExecutionLog.query_execution_time l = zero env
     /\ ExecutionLog.answer_generation_time l = zero env
     /\ ExecutionLog.result l = None
     /\ ExecutionLog.nlp_prompt l = None)
  /\ (forall s1 e, completes (generate_sql env q) s0 s1 ->
        raises (execute_sql env) s1 e ->
        ExecutionLog.sql_generation_time l
        = ExecutionLog.sql_generation_time (log_entry s1)
        /\ ExecutionLog.query_execution_time l = zero env
        /\ ExecutionLog.answer_generation_time l = zero env
        /\ ExecutionLog.result l = Some "Error executing query"
        /\ ExecutionLog.nlp_prompt l = None)
  /\ (forall s1 s2 e, completes (generate_sql env q) s0 s1 ->
        completes (execute_sql env) s1 s2 ->
        raises (generate_answer env q) s2 e ->
        ExecutionLog.query_execution_time l
        = ExecutionLog.query_execution_time (log_entry s2)
        /\ ExecutionLog.answer_generation_time l = zero env
        /\ ExecutionLog.result l = ExecutionLog.result (log_entry s2)
        /\ exists p, ExecutionLog.nlp_prompt l = Some p).
Proof.
  intros Hentry Hrun l.
  destruct (try_entry_effect env _ _ _ _ Hentry)
    as (_ & _ & _ & _ & _ & Hnew & _).
  assert (Hl : forall e s3, run_try env q s0 = (Raise e, s3) ->
               l = ExecutionLog.set_total_duration
                     (round_elapsed env t (time_time env (pred (clock s'))))
                     (ExecutionLog.set_final_answer (Some ("Error: " ++ description e))
                        (ExecutionLog.set_error (Some (description e)) (log_entry s3)))).
  { intros e s3 Htry.
    destruct (run_outcome env _ _ _ _ _ _ Hentry Htry) as (s5 & Hrun5 & _ & _ & _ & _ & Hlog).
    rewrite Hrun5 in Hrun. injection Hrun as _ <-. exact Hlog. }
  unfold raises, completes. split; [|split].
  - intros e H. destruct (generate_sql env q s0) as [r1 s1] eqn:G.
    cbn in H. subst r1.
    rewrite (Hl e s1) by (unfold run_try, bind; now rewrite G). cbn.
    destruct (generate_sql_fields _ _ _ _ G) as (Hr & Hp & Hx & Ha & Hg).
    rewrite Hr, Hp, Hx, Ha, (Hg e eq_refl), Hnew. repeat split.
  - intros s1 e G H. destruct (execute_sql env s1) as [r2 s2] eqn:X.
    cbn in H. subst r2.
    rewrite (Hl e s2) by (unfold run_try, bind; now rewrite G, X). cbn.
    destruct (generate_sql_fields _ _ _ _ G) as (_ & Hp & Hx & Ha & _).
    destruct (execute_sql_fields _ _ _ X) as (Hp' & Hg' & Ha' & Hfail).
    destruct (Hfail e eq_refl) as (Hx' & Hr').
    rewrite Hg', Hx', Hx, Ha', Ha, Hr', Hp', Hp, Hnew. repeat split.
  - intros s1 s2 e G X H. destruct (generate_answer env q s2) as [r3 s3] eqn:A.
    cbn in H. subst r3.
    rewrite (Hl e s3) by (unfold run_try, bind; now rewrite G, X, A). cbn.
    destruct (generate_sql_fields _ _ _ _ G) as (_ & _ & _ & Ha & _).
    destruct (execute_sql_fields _ _ _ X) as (_ & _ & Ha' & _).
    destruct (generate_answer_fields _ _ _ _ A) as (Hr & _ & Hx & Hp & Hfail).
    rewrite Hx, (Hfail e eq_refl), Ha', Ha, Hr, Hnew. repeat split. exact Hp.
Qed.

End RunMore.

Lemma run_raises_on_non_dict_cache_witness :
  let s := Demo.fresh_state
             {| file_path := Demo.cache_path; enabled := true; _cache := JArr [] |}
             Demo.empty_disk in
  exists e s',
    run Demo.base Demo.question s = (Raise e, s')
    /\ exn_class_of e = AttributeError
    /\ description e = "'list' object has no attribute 'get'"
    /\ calls s' = [].
Proof.
  cbv zeta.
  edestruct (run_raises_on_non_dict_cache Demo.base Demo.question
               (Demo.fresh_state
                  {| file_path := Demo.cache_path; enabled := true; _cache := JArr [] |}
                  Demo.empty_disk))
    as (s' & Hrun & Hcalls & _).
  { reflexivity. }
  { intros fields H. discriminate H. }
  do 2 eexists. split; [exact Hrun|]. repeat split. exact Hcalls.
Defined.

Lemma run_raises_on_malformed_entry_witness :
  let s := Demo.fresh_state
             {| file_path := Demo.cache_path; enabled := true;
                _cache := JObj [("what is x?", JObj [("answer", JStr "42")])] |}
             Demo.empty_disk in
  exists e s',
    run Demo.base Demo.question s = (Raise e, s')
    /\ exn_class_of e = KeyError
    /\ calls s' = [].
Proof.
  cbv zeta.
  edestruct (run_raises_on_malformed_entry Demo.base Demo.question
               (Demo.fresh_state
                  {| file_path := Demo.cache_path; enabled := true;
                     _cache := JObj [("what is x?", JObj [("answer", JStr "42")])] |}
                  Demo.empty_disk))
    as (s' & Hrun & Hcalls & _).
  { reflexivity. }
  { reflexivity. }
  { right. eexists. split; reflexivity. }
  do 2 eexists. split; [exact Hrun|]. split; [reflexivity | exact Hcalls].
Defined.

Lemma run_call_sequence_witness :
  exists prompt,
    calls (snd (run Demo.bad_sql Demo.question Demo.start))
    = [GetTableInfo; SqlLlmInvoke prompt; DbRun (Some "SELECT COUNT(*) FROM orders")].
Proof.
  destruct (run Demo.bad_sql Demo.question Demo.start) as [r s'] eqn:Hrun.
  destruct (run_call_sequence Demo.bad_sql Demo.question Demo.start r s' Hrun)
    as (n & raw_res & _ & Hcalls & _).
  replace s' with (snd (run Demo.bad_sql Demo.question Demo.start))
    by now rewrite Hrun.
  eexists. lazy. reflexivity.
Defined.

Lemma failed_stage_record_witness :
  let l := log_entry (snd (run Demo.bad_sql Demo.question Demo.start)) in
  ExecutionLog.sql_generation_time l = 1
  /\ ExecutionLog.query_execution_time l = 0
  /\ ExecutionLog.answer_generation_time l = 0
  /\ ExecutionLog.result l = Some "Error executing query"
  /\ ExecutionLog.total_duration l = 4.
Proof.
  cbv zeta.
  destruct (run Demo.bad_sql Demo.question Demo.start) as [r s'] eqn:Hrun.
  edestruct (failed_stage_record Demo.bad_sql Demo.question Demo.start)
    as (_ & Hexec & _).
  { by_running. }
  { exact Hrun. }
  edestruct Hexec as (Hg & Hx & Ha & Hr & _).
  { by_running. }
  { by_running. }
  cbn [snd]. rewrite Hg, Hx, Ha, Hr.
  replace s' with (snd (run Demo.bad_sql Demo.question Demo.start))
    by now rewrite Hrun.
  repeat split.
Defined.

(** ** Construction and [main] *)

Section StartupFacts.
Context {time duration : Type}.
Variable env : @Env time duration.
Variable host : Host duration.

Local Abbreviation State := (@State duration).

(** A run on a store that is switched off. *)
Lemma run_disabled (q : string) (s : State)
  (r : outcome (QueryResponse.t duration)) (s' : State) :
  enabled (cache s) = false ->
  run env q s = (r, s') ->
  disk s' = disk s /\ cache s' = cache s
  /\ persisted s' = (persisted s ++ [log_entry s'])%list
  /\ exists resp, r = Return resp /\ QueryResponse.from_cache resp = false.
Proof.
  intros Hoff Hrun.
  assert (Hentry : exists t s0, try_entry env q s = Some (t, s0)).
  { unfold try_entry, cache_check, bind, ret, now, now_isoformat, assign, cache_get.
    cbn. unfold Cache.get. rewrite Hoff. cbn. eauto. }
  destruct Hentry as (t & s0 & Hentry).
  destruct (run_try env q s0) as [r3 s3] eqn:Htry.
  destruct (try_entry_effect env _ _ _ _ Hentry)
    as (_ & Hc0 & Hd0 & _ & _ & _ & Hsane & _ & _).
  destruct (run_try_effect env _ _ _ _ Hsane Htry) as (_ & _ & _ & _ & Hcase).
  destruct (run_outcome env _ _ _ _ _ _ Hentry Htry)
    as (s5 & Hrun5 & Hc5 & Hd5 & _ & Hp & Hlog).
  rewrite Hrun5 in Hrun. injection Hrun as <- <-.
  assert (Hstore : cache s3 = cache s0 /\ disk s3 = disk s0).
  { destruct r3 as [[]|e].
    - destruct Hcase as ((s4 & _ & Hset & _) & _).
      unfold Cache.set in Hset. rewrite Hc0, Hoff in Hset. cbn in Hset.
      injection Hset as <- <-. now rewrite Hc0.
    - destruct Hcase as (_ & Hc & Hd & _). now split. }
  destruct Hstore as (Hc3 & Hd3).
  split; [congruence|]. split; [congruence|]. split; [exact Hp|].
  rewrite Hlog. destruct r3 as [[]|e]; cbn.
  - destruct Hcase as (_ & _ & raw & ->). cbn. eauto.
  - eauto.
Qed.

(** X14.  When the database cannot be reached (the connection or the schema
    request raises), constructing the pipeline raises that exception after
    logging it as an error; the cache file plays no part. *)
Theorem pipeline_init_db_failure (use_cache : bool) (logger : DailyLogger duration)
  (d : Disk) (made : list call) (e : exn) :
  from_uri host = Raise e
  \/ (exists u, from_uri host = Return u /\ get_table_info env = Raise e) ->
  exists made',
    TextToSQLPipeline.__init__ env host use_cache logger d made
    = (Raise e,
       (Logger.log_error ("DB Connection failed: " ++ description e)
          (Logger.log_info ("Initializing Pipeline with NLP strategy: "
                            ++ NLP_PROMPT_STRATEGY host) logger),
        made'))
    /\ (made' = made \/ made' = (made ++ [GetTableInfo])%list).
Proof.
  unfold TextToSQLPipeline.__init__, TextToSQLPipeline._connect_to_db.
  intros [H | (u & H & H')]; rewrite H; [|rewrite H'];
    eexists; (split; [reflexivity|]); [now left | now right].
Qed.

(** X15.  When the database answers, constructing the pipeline is
    constructing its cache store: it cannot fail with the cache switched off,
    whatever the file holds, and with the cache switched on it fails on a
    file whose reading raises anything but [JSONDecodeError] or [IOError]. *)
Theorem pipeline_init_cache (use_cache : bool) (logger : DailyLogger duration)
  (d : Disk) (made : list call) (u : unit) (schema : string) :
  from_uri host = Return u ->
  get_table_info env = Return schema ->
  fst (TextToSQLPipeline.__init__ env host use_cache logger d made)
  = Cache.__init__ CACHE_FILE use_cache d
  /\ (use_cache = false ->
      fst (TextToSQLPipeline.__init__ env host use_cache logger d made)
      = Return (Cache.blank CACHE_FILE false))
  /\ (forall e, use_cache = true ->
        cache_file d = Present (Raise e) ->
        Cache.caught_on_load e = false ->
        fst (TextToSQLPipeline.__init__ env host use_cache logger d made) = Raise e).
Proof.
  intros Hu Hs.
  assert (H : fst (TextToSQLPipeline.__init__ env host use_cache logger d made)
              = Cache.__init__ CACHE_FILE use_cache d).
  { unfold TextToSQLPipeline.__init__, TextToSQLPipeline._connect_to_db.
    now rewrite Hu, Hs. }
  rewrite H. split; [reflexivity|]. split.
  - intros ->. reflexivity.
  - intros e -> Hfile Hcaught. unfold Cache.__init__, Cache._load_cache.
    cbn [Cache.blank enabled negb]. now rewrite Hfile, Hcaught.
Qed.

Lemma init_outcome (use_cache : bool) (logger : DailyLogger duration)
  (d : Disk) (made : list call) :
  exists r logger' made',
    TextToSQLPipeline.__init__ env host use_cache logger d made
    = (r, (logger', made'))
    /\ Logger.records (file_handler logger') = Logger.records (file_handler logger)
    /\ (forall c, r = Return c -> c = Cache.blank CACHE_FILE false \/ use_cache = true)
    /\ (forall c, r = Return c -> Cache.__init__ CACHE_FILE use_cache d = Return c).
Proof.
  unfold TextToSQLPipeline.__init__, TextToSQLPipeline._connect_to_db.
  destruct (from_uri host) as [u|e].
  - destruct (get_table_info env) as [schema|e].
    + do 3 eexists. split; [reflexivity|]. cbn. rewrite !records_message.
      split; [reflexivity|]. split; [|tauto].
      intros c. destruct use_cache; [now right|].
      intros H. left. now injection H.
    + do 3 eexists. split; [reflexivity|]. cbn. rewrite !records_message.
      split; [reflexivity|]. split; discriminate.
  - do 3 eexists. split; [reflexivity|]. cbn. rewrite !records_message.
    split; [reflexivity|]. split; discriminate.
Qed.

Lemma clear_then_init (manager manager' : CacheManager) (d d' : Disk)
  (removal : outcome unit) (on : bool) :
  Cache.clear manager d removal = (Return tt, (manager', d')) ->
  Cache.__init__ CACHE_FILE on d' = Return (Cache.blank CACHE_FILE on).
Proof.
  unfold Cache.clear, Cache.__init__, Cache._load_cache.
  destruct (cache_file d) as [|load] eqn:Hfile.
  - intros H. injection H as _ <-. rewrite Hfile. now destruct on.
  - destruct removal as [[]|e]; [|discriminate].
    intros H. injection H as _ <-. cbn [cache_file]. now destruct on.
Qed.

(** The three ways [serve] ends, with what it leaves. *)
Lemma serve_cases (args : Main.Args) (p : Main.Process) :
  match TextToSQLPipeline.__init__ env host (negb (Main.no_cache args))
          (Main.the_logger p) (Main.the_disk p) (Main.calls_made p) with
  | (Raise e, (logger', made')) =>
      exists p1,
        Main.serve env host args p = (Main.SystemExit 1, p1)
        /\ Main.the_disk p1 = Main.the_disk p
        /\ Main.the_logger p1 = logger' /\ Main.calls_made p1 = made'
  | (Return c, (logger', made')) =>
      let s := {| cache := c; disk := Main.the_disk p; app_logger := logger';
                  clock := 0; calls := made';
                  log_entry := ExecutionLog.new (zero env) "" "" "" "" |} in
      exists p1,
        Main.serve env host args p
        = (match fst (run env (Main.question args) s) with
           | Return _ => Main.Finished
           | Raise e => Main.Uncaught e
           end, p1)
        /\ Main.the_disk p1 = disk (snd (run env (Main.question args) s))
        /\ Main.the_logger p1 = app_logger (snd (run env (Main.question args) s))
        /\ Main.calls_made p1 = calls (snd (run env (Main.question args) s))
  end.
Proof.
  unfold Main.serve.
  cbn [Main.print Main.the_logger Main.the_disk Main.calls_made Main.stdout].
  destruct (TextToSQLPipeline.__init__ env host (negb (Main.no_cache args))
              (Main.the_logger p) (Main.the_disk p) (Main.calls_made p))
    as [[c|e] [logger' made']].
  - cbv zeta.
    destruct (run env (Main.question args) _) as [[resp|e] s'];
      eexists; (split; [reflexivity|]).
    + unfold Main.display. cbv zeta.
      destruct (QueryResponse.from_cache resp); repeat split.
    + repeat split.
  - eexists. split; [reflexivity|]. repeat split.
Qed.

(** X16.  With [--no-cache] and without [--clear-cache], [main] leaves the
    cache file as it is; it ends with exit code 1 when the pipeline cannot
    be constructed, and otherwise finishes after a run of its own, which
    persists one record. *)
Theorem main_no_cache (args : Main.Args) (p p' : Main.Process) (e : Main.ending) :
  Main.no_cache args = true ->
  Main.clear_cache args = false ->
  Main.main env host args p = (e, p') ->
  Main.the_disk p' = Main.the_disk p
  /\ (e = Main.SystemExit 1
      \/ (e = Main.Finished
          /\ exists l,
               Logger.records (file_handler (Main.the_logger p'))
               = (Logger.records (file_handler (Main.the_logger p)) ++ [l])%list)).
Proof.
  intros Hno Hclear. unfold Main.main. rewrite Hclear.
  pose proof (serve_cases args p) as Hserve. rewrite Hno in Hserve. cbn [negb] in Hserve.
  destruct (init_outcome false (Main.the_logger p) (Main.the_disk p) (Main.calls_made p))
    as (r & logger' & made' & Hinit & Hrec & Hoff & _).
  rewrite Hinit in Hserve. destruct r as [c|e0].
  - destruct (Hoff c eq_refl) as [-> | H]; [|discriminate].
    cbv zeta in Hserve. destruct Hserve as (p1 & Hs & Hd & Hl & _).
    match type of Hs with context [run env ?q ?s] =>
      destruct (run env q s) as [r s'] eqn:Hrun end.
    pose proof Hrun as Hdis. apply run_disabled in Hdis; [|reflexivity].
    destruct Hdis as (Hd' & _ & Hp & resp & -> & _).
    cbn [fst snd] in *. rewrite Hs. intros H. injection H as <- <-.
    split; [now rewrite Hd, Hd'|]. right. split; [reflexivity|].
    exists (log_entry s'). rewrite Hl. unfold persisted in Hp.
    cbn [app_logger] in Hp. now rewrite Hp, Hrec.
  - destruct Hserve as (p1 & Hs & Hd & _). rewrite Hs.
    intros H. injection H as <- <-. split; [exact Hd | now left].
Qed.

(** X17.  With [--clear-cache], a [main] that finishes has removed the cache
    file before constructing the pipeline, so the question is never served
    from the cache: the run persists one record. *)
Theorem main_clear_cache (args : Main.Args) (p p' : Main.Process) :
  Main.clear_cache args = true ->
  Main.main env host args p = (Main.Finished, p') ->
  exists l,
    Logger.records (file_handler (Main.the_logger p'))
    = (Logger.records (file_handler (Main.the_logger p)) ++ [l])%list.
Proof.
  intros Hclear. unfold Main.main, Main.handle_cache_clearing. rewrite Hclear.
  destruct (Cache.__init__ CACHE_FILE true (Main.the_disk p)) as [manager|e0];
    [|discriminate].
  destruct (Cache.clear manager (Main.the_disk p) (os_remove host))
    as [rc [manager' d']] eqn:Hc.
  destruct rc as [[]|e0]; [|discriminate].
  pose proof (clear_then_init _ _ _ _ _ (negb (Main.no_cache args)) Hc) as Hgone.
  match goal with |- Main.serve env host args ?q = _ -> _ =>
    pose proof (serve_cases args q) as Hserve end.
  cbn [Main.print Main.the_logger Main.the_disk Main.calls_made Main.stdout] in Hserve.
  destruct (init_outcome (negb (Main.no_cache args)) (Main.the_logger p) d'
              (Main.calls_made p))
    as (r & logger' & made' & Hinit & Hrec & _ & Hcache).
  rewrite Hinit in Hserve. destruct r as [c|e0].
  2:{ destruct Hserve as (p1 & Hs & _). rewrite Hs. discriminate. }
  specialize (Hcache c eq_refl). rewrite Hgone in Hcache. injection Hcache as <-.
  cbv zeta in Hserve. destruct Hserve as (p1 & Hs & _ & Hl & _).
  rewrite Hs.
  match type of Hs with context [run env ?q ?s] =>
    destruct (run env q s) as [r s'] eqn:Hrun end.
  cbn [fst snd] in *.
  destruct r as [resp|e0]; [|discriminate]. intros H. injection H as <-.
  assert (Hentry : exists t s0,
             try_entry env (Main.question args)
               {| cache := Cache.blank CACHE_FILE (negb (Main.no_cache args));
                  disk := d'; app_logger := logger'; clock := 0; calls := made';
                  log_entry := ExecutionLog.new (zero env) "" "" "" "" |}
             = Some (t, s0)).
  { unfold try_entry, cache_check, bind, ret, now, now_isoformat, assign, cache_get.
    cbn. rewrite CacheFacts.get_blank. cbn. eauto. }
  destruct Hentry as (t & s0 & Hentry).
  destruct (run_try env (Main.question args) s0) as [r3 s3] eqn:Htry.
  destruct (run_outcome env _ _ _ _ _ _ Hentry Htry)
    as (s5 & Hrun5 & _ & _ & _ & Hp & _).
  rewrite Hrun5 in Hrun. injection Hrun as _ <-.
  exists (log_entry s5). rewrite Hl. unfold persisted in Hp.
  cbn [app_logger] in Hp. now rewrite Hp, Hrec.
Qed.

(** X18.  A cache file whose reading raises outside the [except] clause (a
    file that is not UTF-8): [--clear-cache] cannot remove it, [main] ends
    with that exception before anything is printed and the file stays; and
    without [--clear-cache] and [--no-cache], with the database answering,
    [main] ends with exit code 1. *)
Theorem main_undecodable_cache (args : Main.Args) (p : Main.Process) (e : exn)
  (u : unit) (schema : string) :
  cache_file (Main.the_disk p) = Present (Raise e) ->
  Cache.caught_on_load e = false ->
  (Main.clear_cache args = true ->
   Main.main env host args p = (Main.Uncaught e, p))
  /\ (Main.clear_cache args = false -> Main.no_cache args = false ->
      from_uri host = Return u -> get_table_info env = Return schema ->
      exists p',
        Main.main env host args p = (Main.SystemExit 1, p')
        /\ Main.the_disk p' = Main.the_disk p
        /\ Main.calls_made p' = (Main.calls_made p ++ [GetTableInfo])%list).
Proof.
  intros Hfile Hcaught. split.
  - intros Hclear. unfold Main.main, Main.handle_cache_clearing. rewrite Hclear.
    unfold Cache.__init__, Cache._load_cache. cbn [Cache.blank enabled negb].
    now rewrite Hfile, Hcaught.
  - intros Hclear Hno Hu Hs. unfold Main.main. rewrite Hclear.
    pose proof (serve_cases args p) as Hserve. rewrite Hno in Hserve.
    cbn [negb] in Hserve.
    unfold TextToSQLPipeline.__init__, TextToSQLPipeline._connect_to_db in Hserve.
    rewrite Hu, Hs in Hserve.
    unfold Cache.__init__, Cache._load_cache in Hserve.
    cbn [Cache.blank enabled negb] in Hserve. rewrite Hfile, Hcaught in Hserve.
    destruct Hserve as (p1 & H1 & Hd & _ & Hm). exists p1. now repeat split.
Qed.

End StartupFacts.

Lemma pipeline_init_db_failure_witness :
  fst (TextToSQLPipeline.__init__ Demo.base DemoHost.down true DemoHost.silent
         DemoHost.answered [])
  = Raise (Demo.boom "Can't connect to MySQL server")
  /\ fst (TextToSQLPipeline.__init__ Demo.no_schema DemoHost.up true DemoHost.silent
            DemoHost.answered [])
     = Raise (Demo.boom "connection lost").
Proof.
  split.
  - edestruct (pipeline_init_db_failure Demo.base DemoHost.down true DemoHost.silent
                 DemoHost.answered []) as (made' & H & _).
    { left. reflexivity. }
    now rewrite H.
  - edestruct (pipeline_init_db_failure Demo.no_schema DemoHost.up true DemoHost.silent
                 DemoHost.answered []) as (made' & H & _).
    { right. eexists. split; reflexivity. }
    now rewrite H.
Defined.

Lemma pipeline_init_cache_witness :
  fst (TextToSQLPipeline.__init__ Demo.base DemoHost.up true DemoHost.silent
         DemoHost.undecodable [])
  = Raise DemoHost.not_utf8
  /\ fst (TextToSQLPipeline.__init__ Demo.base DemoHost.up false DemoHost.silent
            DemoHost.undecodable [])
     = Return (Cache.blank CACHE_FILE false).
Proof.
  split.
  - apply (proj2 (proj2 (pipeline_init_cache Demo.base DemoHost.up true DemoHost.silent
                           DemoHost.undecodable [] tt _ eq_refl eq_refl)));
      reflexivity.
  - apply (proj1 (proj2 (pipeline_init_cache Demo.base DemoHost.up false DemoHost.silent
                           DemoHost.undecodable [] tt _ eq_refl eq_refl))).
    reflexivity.
Defined.

Lemma main_no_cache_witness :
  let final := Main.main Demo.base DemoHost.up (DemoHost.args true false)
                 (DemoHost.process DemoHost.answered) in
  fst final = Main.Finished
  /\ Main.the_disk (snd final) = DemoHost.answered.
Proof.
  cbv zeta.
  destruct (Main.main Demo.base DemoHost.up (DemoHost.args true false)
              (DemoHost.process DemoHost.answered)) as [e p'] eqn:Hmain.
  destruct (main_no_cache Demo.base DemoHost.up (DemoHost.args true false)
              (DemoHost.process DemoHost.answered) p' e eq_refl eq_refl Hmain)
    as (Hdisk & _).
  split; [|exact Hdisk].
  replace e with (fst (Main.main Demo.base DemoHost.up (DemoHost.args true false)
                         (DemoHost.process DemoHost.answered)))
    by now rewrite Hmain.
  lazy. reflexivity.
Defined.

Lemma main_clear_cache_witness :
  let final := Main.main Demo.base DemoHost.up (DemoHost.args false true)
                 (DemoHost.process DemoHost.answered) in
  fst final = Main.Finished
  /\ exists l,
       Logger.records (file_handler (Main.the_logger (snd final))) = [l].
Proof.
  cbv zeta.
  destruct (Main.main Demo.base DemoHost.up (DemoHost.args false true)
              (DemoHost.process DemoHost.answered)) as [e p'] eqn:Hmain.
  assert (He : e = Main.Finished).
  { replace e with (fst (Main.main Demo.base DemoHost.up (DemoHost.args false true)
                           (DemoHost.process DemoHost.answered)))
      by now rewrite Hmain.
    lazy. reflexivity. }
  split; [exact He|]. subst e.
  exact (main_clear_cache Demo.base DemoHost.up (DemoHost.args false true)
           (DemoHost.process DemoHost.answered) p' eq_refl Hmain).
Defined.

Lemma main_undecodable_cache_witness :
  Main.main Demo.base DemoHost.up (DemoHost.args false true)
    (DemoHost.process DemoHost.undecodable)
  = (Main.Uncaught DemoHost.not_utf8, DemoHost.process DemoHost.undecodable)
  /\ fst (Main.main Demo.base DemoHost.up (DemoHost.args false false)
            (DemoHost.process DemoHost.undecodable))
     = Main.SystemExit 1.
Proof.
  destruct (main_undecodable_cache Demo.base DemoHost.up (DemoHost.args false true)
              (DemoHost.process DemoHost.undecodable) DemoHost.not_utf8 tt
              "CREATE TABLE orders (id INT)" eq_refl eq_refl) as (Hclear & _).
  destruct (main_undecodable_cache Demo.base DemoHost.up (DemoHost.args false false)
              (DemoHost.process DemoHost.undecodable) DemoHost.not_utf8 tt
              "CREATE TABLE orders (id INT)" eq_refl eq_refl) as (_ & Hplain).
  split; [exact (Hclear eq_refl)|].
  destruct (Hplain eq_refl eq_refl eq_refl eq_refl) as (p' & H & _).
  now rewrite H.
Defined.
